(** * Ducktracker conversion script: dwell segmentation and home anonymisation

    A shallow embedding of [ducktracker/ducktracker_convert.py]:
    [find_home], [within_tsi], [is_same_place] and the per-user scan of
    [write_out], together with the library routines they call
    ([float], the ['%.4f'] format, [statistics.mode], [datetime.strptime],
    [str.split], [str.join], [randint]).

    Strings are [string]; Python floats are IEEE binary64 values, modelled by
    [spec_float] with precision 53 and maximal exponent 1024; a raised
    exception is the [Raise] case of [result]. *)

From Stdlib Require Import ZArith NArith PArith List String Ascii Bool Lia.
From Stdlib Require Import DecimalString DecimalN DecimalZ.
From Stdlib Require Import Floats.SpecFloat.
Import ListNotations.

Open Scope string_scope.
Open Scope Z_scope.

(** ** Exceptions *)

Inductive exn : Type :=
| ValueError
| IndexError
| KeyError
| OverflowError
| StatisticsError
| OSError.

Inductive result (A : Type) : Type :=
| Ok (a : A)
| Raise (e : exn).

Arguments Ok {A} a.
Arguments Raise {A} e.

Definition bind {A B : Type} (m : result A) (k : A -> result B) : result B :=
  match m with
  | Ok a => k a
  | Raise e => Raise e
  end.

Notation "x <- m ;; k" := (bind m (fun x => k))
  (at level 61, m at next level, right associativity).
Notation "' p <- m ;; k" := (bind m (fun x => let p := x in k))
  (at level 61, p pattern, m at next level, right associativity).

(** ** Strings *)

Module Str.

(** [s.split(sep, 1)]: the text before and after the first [sep], or
    [None] when [sep] does not occur (Python then returns the one-element
    list [[s]]). *)
Fixpoint split_once (sep : ascii) (s : string) : option (string * string) :=
  match s with
  | EmptyString => None
  | String c r =>
      if Ascii.eqb c sep then Some (EmptyString, r)
      else match split_once sep r with
           | Some (a, b) => Some (String c a, b)
           | None => None
           end
  end.

(** [s.split(sep)]: all the fields between occurrences of [sep]. *)
Fixpoint split (sep : ascii) (s : string) : list string :=
  match s with
  | EmptyString => [EmptyString]
  | String c r =>
      if Ascii.eqb c sep then EmptyString :: split sep r
      else match split sep r with
           | f :: fs => String c f :: fs
           | [] => [String c EmptyString]
           end
  end.

(** [sep.join(l)] *)
Fixpoint join (sep : string) (l : list string) : string :=
  match l with
  | [] => EmptyString
  | [x] => x
  | x :: r => x ++ sep ++ join sep r
  end.

(** [s[:-1]] *)
Fixpoint drop_last (s : string) : string :=
  match s with
  | EmptyString => EmptyString
  | String _ EmptyString => EmptyString
  | String c r => String c (drop_last r)
  end.

Definition is_digit (c : ascii) : bool :=
  let n := N_of_ascii c in (48 <=? n)%N && (n <=? 57)%N.

Fixpoint all_digits (s : string) : bool :=
  match s with
  | EmptyString => true
  | String c r => is_digit c && all_digits r
  end.

(** The number a string of ASCII digits denotes, read left to right. *)
Fixpoint digits_value (acc : N) (s : string) : N :=
  match s with
  | EmptyString => acc
  | String c r => digits_value (10 * acc + (N_of_ascii c - 48))%N r
  end.

(** The character of a digit [0..9]. *)
Definition digit_char (d : N) : ascii := ascii_of_N (48 + d mod 10).

(** [str(n)] for a natural number. *)
Definition of_N (n : N) : string := NilZero.string_of_uint (N.to_uint n).

(** [str(z)] for an int. *)
Definition of_Z (z : Z) : string := NilZero.string_of_int (Z.to_int z).

End Str.

(** ** Binary64 floats *)

Definition prec : Z := 53.
Definition emax : Z := 1024.

Definition is_finite (x : spec_float) : bool :=
  match x with
  | S754_zero _ | S754_finite _ _ _ => true
  | S754_infinity _ | S754_nan => false
  end.

(** The float nearest to [(-1)^neg * m / 10^k] (ties to even): a decimal
    literal with digits [m] of which [k] follow the point. *)
Definition decimal_to_float (neg : bool) (m : N) (k : nat) : spec_float :=
  match m with
  | N0 => S754_zero neg
  | Npos p =>
      SFdiv prec emax (S754_finite neg p 0)
                      (S754_finite false (Z.to_pos (10 ^ Z.of_nat k)) 0)
  end.

(** [float(s)] for a string: an optional sign, then digits with an optional
    point ([12], [12.5], [12.], [.5]), or one of [inf], [-inf], [nan] as
    ['%.4f'] prints them.  Anything else raises [ValueError]; exponent
    notation, surrounding blanks and digit-group underscores, which Python
    also reads, do not occur in the tracker's records and are left out. *)
Definition float_of_unsigned (neg : bool) (body : string) : result spec_float :=
  let '(ip, fp) := match Str.split_once "." body with
                   | Some (i, f) => (i, f)
                   | None => (body, EmptyString)
                   end in
  let ds := ip ++ fp in
  if Str.all_digits ds && negb (ds =? EmptyString)%string
  then Ok (decimal_to_float neg (Str.digits_value 0 ds) (String.length fp))
  else Raise ValueError.

Definition float_of_string (s : string) : result spec_float :=
  if (s =? "nan")%string then Ok S754_nan
  else if (s =? "inf")%string then Ok (S754_infinity false)
  else if (s =? "-inf")%string then Ok (S754_infinity true)
  else match s with
       | String "-" r => float_of_unsigned true r
       | String "+" r => float_of_unsigned false r
       | _ => float_of_unsigned false s
       end.

(** [round(m * 2^e * 10^4)] to the nearest integer, ties to even: the
    digits ['%.4f'] prints for the float of mantissa [m] and exponent [e]. *)
Definition scaled4 (m : positive) (e : Z) : N :=
  match e with
  | Zneg d =>
      let num := (Npos m * 10000)%N in
      let den := (2 ^ Npos d)%N in
      let q := (num / den)%N in
      let r := (num mod den)%N in
      match (2 * r ?= den)%N with
      | Lt => q
      | Gt => (q + 1)%N
      | Eq => if N.even q then q else (q + 1)%N
      end
  | _ => (Npos m * 2 ^ Z.to_N e * 10000)%N
  end.

(** The text of a count [n] of ten-thousandths: integer part, point, four
    decimals. *)
Definition fixed4 (neg : bool) (n : N) : string :=
  (if neg then "-" else EmptyString) ++ Str.of_N (n / 10000) ++ "."
  ++ String (Str.digit_char (n / 1000)) (String (Str.digit_char (n / 100))
      (String (Str.digit_char (n / 10)) (String (Str.digit_char n) EmptyString))).

(** ['%.4f' % x] *)
Definition fmt4 (x : spec_float) : string :=
  match x with
  | S754_nan => "nan"
  | S754_infinity s => if s then "-inf" else "inf"
  | S754_zero s => fixed4 s 0
  | S754_finite s m e => fixed4 s (scaled4 m e)
  end.

(** A value handed to [float()]: the script passes strings (rounded
    coordinates) and, in the initial [prev_latlon], the int [-1]. *)
Inductive pyval : Type :=
| PInt (z : Z)
| PStr (s : string).

Definition float (v : pyval) : result spec_float :=
  match v with
  | PStr s => float_of_string s
  | PInt z =>
      let x := binary_normalize prec emax z 0 false in
      if is_finite x then Ok x else Raise OverflowError
  end.

Definition latlon : Type := (pyval * pyval)%type.

(** ** The script *)

(** Global temporal sampling interval in minutes *)
Definition TSI : Z := 5.

(** [margin = .0002] *)
Definition margin : spec_float := decimal_to_float false 2 4.

(** [abs(x - y) <= margin] *)
Definition within_margin (x y : spec_float) : bool :=
  SFleb (SFabs (SFsub prec emax x y)) margin.

Definition is_same_place (latlon_1 latlon_2 : latlon) : result bool :=
  a0 <- float (fst latlon_1) ;;
  b0 <- float (fst latlon_2) ;;
  let same_lat := within_margin a0 b0 in
  a1 <- float (snd latlon_1) ;;
  b1 <- float (snd latlon_2) ;;
  let same_lon := within_margin a1 b1 in
  Ok (same_lat && same_lon).

(** ** Dates and times *)

Record datetime : Type := {
  year : Z; month : Z; day : Z;
  hour : Z; minute : Z; second : Z
}.

Module Calendar.

Definition is_leap (y : Z) : bool :=
  (y mod 4 =? 0) && (negb (y mod 100 =? 0) || (y mod 400 =? 0)).

Definition days_in_month (y m : Z) : Z :=
  if m =? 2 then (if is_leap y then 29 else 28)
  else if (m =? 4) || (m =? 6) || (m =? 9) || (m =? 11) then 30
  else 31.

(** Days in the years before year [y], counted from year 1. *)
Definition days_before_year (y : Z) : Z :=
  let p := y - 1 in p * 365 + p / 4 - p / 100 + p / 400.

(** Days of year [y] before the first of month [m]. *)
Definition days_before_month (y m : Z) : Z :=
  fold_right Z.add 0
    (map (days_in_month y) (map Z.of_nat (seq 1 (Z.to_nat (m - 1))))).

(** [date.toordinal()] *)
Definition ymd2ord (y m d : Z) : Z :=
  days_before_year y + days_before_month y m + d.

(** Seconds from midnight before 1 January of year 1. *)
Definition seconds (t : datetime) : Z :=
  (ymd2ord (year t) (month t) (day t) - 1) * 86400
  + hour t * 3600 + minute t * 60 + second t.

(** [(after - before).total_seconds()] *)
Definition total_seconds (after before : datetime) : Z :=
  seconds after - seconds before.

(** What [datetime(...)] accepts. *)
Definition valid (t : datetime) : bool :=
  (1 <=? year t) && (year t <=? 9999)
  && (1 <=? month t) && (month t <=? 12)
  && (1 <=? day t) && (day t <=? days_in_month (year t) (month t))
  && (0 <=? hour t) && (hour t <=? 23)
  && (0 <=? minute t) && (minute t <=? 59)
  && (0 <=? second t) && (second t <=? 59).

End Calendar.

(** A field of one or two digits whose value lies in [lo..hi]: the
    patterns of [%m], [%H], [%M] and [%S]. *)
Definition digits12 (lo hi : Z) (s : string) : option Z :=
  let v := Z.of_N (Str.digits_value 0 s) in
  if Str.all_digits s
     && ((String.length s =? 1)%nat || (String.length s =? 2)%nat)
     && (lo <=? v) && (v <=? hi)
  then Some v else None.

(** [%d] also takes a blank followed by one of [1..9]. *)
Definition day_field (s : string) : option Z :=
  match s with
  | String " " r =>
      if (String.length r =? 1)%nat then digits12 1 9 r else None
  | _ => digits12 1 31 s
  end.

(** [%Y]: four digits. *)
Definition year_field (s : string) : option Z :=
  if Str.all_digits s && (String.length s =? 4)%nat
  then Some (Z.of_N (Str.digits_value 0 s)) else None.

Definition parse_fields (s : string) : option datetime :=
  match Str.split_once "/" s with
  | None => None
  | Some (m, s1) =>
  match Str.split_once "/" s1 with
  | None => None
  | Some (d, s2) =>
  match Str.split_once "-" s2 with
  | None => None
  | Some (y, s3) =>
  match Str.split_once ":" s3 with
  | None => None
  | Some (H, s4) =>
  match Str.split_once ":" s4 with
  | None => None
  | Some (mi, se) =>
  match digits12 1 12 m, day_field d, year_field y,
        digits12 0 23 H, digits12 0 59 mi, digits12 0 61 se with
  | Some m', Some d', Some y', Some H', Some mi', Some se' =>
      Some {| year := y'; month := m'; day := d';
              hour := H'; minute := mi'; second := se' |}
  | _, _, _, _, _, _ => None
  end end end end end end.

(** [datetime.strptime(s, "%m/%d/%Y-%H:%M:%S")] *)
Definition strptime (s : string) : result datetime :=
  match parse_fields s with
  | Some t => if Calendar.valid t then Ok t else Raise ValueError
  | None => Raise ValueError
  end.

Definition within_tsi (before_date before_time after_date after_time : string)
  : result bool :=
  before <- strptime (before_date ++ "-" ++ before_time) ;;
  after <- strptime (after_date ++ "-" ++ after_time) ;;
  let delta := Calendar.total_seconds after before in
  Ok (delta <=? TSI * 60 * 2).

(** ** [statistics.mode]

    [mode] is the library function of Python 3.8 and later: the first of
    the most common values in order of first occurrence, and
    [StatisticsError] for no data only.  [mode_unique] is the function as
    it was up to Python 3.7, which raised unless one value was strictly the
    most common; the handler around the call in [find_home] was written
    for it. *)

Section Mode.
Context {A : Type} (eqb : A -> A -> bool).

Fixpoint count (x : A) (l : list A) : nat :=
  match l with
  | [] => 0
  | y :: r => (if eqb x y then 1 else 0) + count x r
  end.

(** The values of [l], each once, in order of first occurrence. *)
Fixpoint distinct (l : list A) : list A :=
  match l with
  | [] => []
  | x :: r => x :: filter (fun y => negb (eqb x y)) (distinct r)
  end.

Definition maxfreq (l : list A) : nat :=
  fold_right Nat.max 0%nat (map (fun x => count x l) l).

(** The table of the most common values, in order of first occurrence. *)
Definition modes (l : list A) : list A :=
  filter (fun x => (count x l =? maxfreq l)%nat) (distinct l).

Definition mode (l : list A) : result A :=
  match modes l with
  | x :: _ => Ok x
  | [] => Raise StatisticsError
  end.

(** [mode] up to Python 3.7. *)
Definition mode_unique (l : list A) : result A :=
  match modes l with
  | [x] => Ok x
  | _ => Raise StatisticsError
  end.
End Mode.

(** ** The data *)

(** One location measurement: [data[user][entry]]. *)
Record measurement : Type := {
  latitude : string;
  longitude : string
}.

(** A user's measurements by timestamp key, in iteration order. *)
Definition history : Type := list (string * measurement).

(** The JSON object: users in iteration order. *)
Definition dataset : Type := list (string * history).

(** [d[k]] *)
Fixpoint lookup {A : Type} (k : string) (d : list (string * A)) : result A :=
  match d with
  | [] => Raise KeyError
  | (k', v) :: r => if (k =? k')%string then Ok v else lookup k r
  end.

Definition pair_eqb (a b : string * string) : bool :=
  (fst a =? fst b)%string && (snd a =? snd b)%string.

(** [lat = '%.4f' % float(lat)] and the same for [lon], as both loops over
    a user's measurements do. *)
Definition rounded_latlon (lat lon : string) : result (string * string) :=
  x <- float_of_string lat ;;
  let lat := fmt4 x in
  y <- float_of_string lon ;;
  let lon := fmt4 y in
  Ok (lat, lon).

(** ** [find_home] *)

(** The loop over the user's measurements, [latlons] being the list built
    so far. *)
Fixpoint find_home_loop (entries : history) (latlons : list (string * string))
  : result (list (string * string)) :=
  match entries with
  | [] => Ok latlons
  | (_, m) :: rest =>
      let lat := latitude m in
      let lon := longitude m in
      if (lat =? EmptyString)%string || (lon =? EmptyString)%string
      then find_home_loop rest latlons
      else
        '(lat, lon) <- rounded_latlon lat lon ;;
        find_home_loop rest (latlons ++ [(lat, lon)])
  end.

Definition find_home (data : dataset) (user : string) : result (string * string) :=
  entries <- lookup user data ;;
  latlons <- find_home_loop entries [] ;;
  home_latlon <-
    match mode pair_eqb latlons with
    | Ok h => Ok h
    | Raise _ =>
        match latlons with
        | h :: _ => Ok h
        | [] => Raise IndexError
        end
    end ;;
  Ok (fst home_latlon, snd home_latlon).

(** ** [write_out] *)

(** The variables the scan of one user carries from measurement to
    measurement. *)
Record seg_state : Type := {
  time_at_loc : Z;
  prev_time : string;
  prev_date : string;
  prev_latlon : latlon
}.

Definition initial_state : seg_state :=
  {| time_at_loc := 0;
     prev_time := EmptyString;
     prev_date := EmptyString;
     prev_latlon := (PInt (-1), PInt (-1)) |}.

(** The fields of one written line. *)
Record row : Type := {
  row_user : string;
  row_date : string;
  row_time : string;
  row_lat : string;
  row_lon : string;
  row_time_at_loc : Z
}.

Definition tab : string := String (ascii_of_nat 9) EmptyString.
Definition newline : string := String (ascii_of_nat 10) EmptyString.

Definition line (r : row) : string :=
  Str.join tab [row_user r; row_date r; row_time r; row_lat r; row_lon r;
                Str.of_Z (row_time_at_loc r)] ++ newline.

Definition header : string :=
  Str.join tab ["User I.D."; "Date"; "Time"; "Latitude"; "Longitude";
                "Time at Location"] ++ newline.

(** [date, time = entry.split(" ", 1)] *)
Definition split_entry (entry : string) : result (string * string) :=
  match Str.split_once " " entry with
  | Some dt => Ok dt
  | None => Raise ValueError
  end.

(** [year, month, day = date.split("-")] *)
Definition split_date (date : string) : result (string * string * string) :=
  match Str.split "-" date with
  | [y; m; d] => Ok (y, m, d)
  | _ => Raise ValueError
  end.

(** The key ["YYYY-MM-DD HH:MM:SS"] as the date ["MM/DD/YYYY"] and the
    time. *)
Definition reformat_key (entry : string) : result (string * string) :=
  '(date, time) <- split_entry entry ;;
  '(y, mo, d) <- split_date date ;;
  let date := Str.join "/" [mo; d; y] in
  Ok (date, time).

Definition as_latlon (c : string * string) : latlon := (PStr (fst c), PStr (snd c)).

(** The body of the loop over a user's measurements: the state after it
    and the row it writes, if any. *)
Definition scan_entry (user : string) (home_latlon anon_home : string * string)
    (st : seg_state) (ent : string * measurement)
  : result (seg_state * option row) :=
  let '(entry, m) := ent in
  let lat := latitude m in
  let lon := longitude m in
  if (lat =? EmptyString)%string || (lon =? EmptyString)%string then Ok (st, None)
  else
    '(date, time) <- reformat_key entry ;;
    '(lat, lon) <- rounded_latlon lat lon ;;
    same <- is_same_place (as_latlon (lat, lon)) (prev_latlon st) ;;
    '(dwell, place) <-
      (if same : bool then
         inside <- within_tsi (prev_date st) (prev_time st) date time ;;
         Ok (if inside : bool then time_at_loc st + TSI else 0, prev_latlon st)
       else Ok (0, as_latlon (lat, lon))) ;;
    let st' := {| time_at_loc := dwell; prev_time := time;
                  prev_date := date; prev_latlon := place |} in
    home <- is_same_place (as_latlon (lat, lon)) (as_latlon home_latlon) ;;
    let '(lat, lon) := if home : bool then anon_home else (lat, lon) in
    Ok (st', Some {| row_user := user; row_date := date; row_time := time;
                     row_lat := lat; row_lon := lon;
                     row_time_at_loc := dwell |}).

(** The loop over a user's measurements: the rows written, and the final
    state or the exception that stopped the loop. *)
Fixpoint scan (user : string) (home_latlon anon_home : string * string)
    (st : seg_state) (entries : history) : list row * result seg_state :=
  match entries with
  | [] => ([], Ok st)
  | ent :: rest =>
      match scan_entry user home_latlon anon_home st ent with
      | Raise e => ([], Raise e)
      | Ok (st', out) =>
          let '(rows, r) := scan user home_latlon anon_home st' rest in
          (match out with Some w => w :: rows | None => rows end, r)
      end
  end.

(** [randint(lo, hi)] from one draw of the generator. *)
Definition randint (lo hi : Z) (draw : N) : Z :=
  lo + Z.of_N draw mod (hi - lo + 1).

(** [home[:-1] + str(randint(0, 9))] *)
Definition anonymize (home : string) (draw : N) : string :=
  Str.drop_last home ++ Str.of_Z (randint 0 9 draw).

(** The body of the loop over users, given the generator's two draws. *)
Definition write_user (data : dataset) (user : string) (draw_lat draw_lon : N)
  : list row * result seg_state :=
  match find_home data user with
  | Raise e => ([], Raise e)
  | Ok home_latlon =>
      let anon_home_lat := anonymize (fst home_latlon) draw_lat in
      let anon_home_lon := anonymize (snd home_latlon) draw_lon in
      match lookup user data with
      | Raise e => ([], Raise e)
      | Ok entries =>
          scan user home_latlon (anon_home_lat, anon_home_lon)
               initial_state entries
      end
  end.

(** The loop over users; [rand i] is the generator's [i]-th draw. *)
Fixpoint write_users (data : dataset) (users : list string)
    (rand : nat -> N) (i : nat) : list row * result unit :=
  match users with
  | [] => ([], Ok tt)
  | user :: rest =>
      match write_user data user (rand i) (rand (S i)) with
      | (rows, Raise e) => (rows, Raise e)
      | (rows, Ok _) =>
          let '(rows', r) := write_users data rest rand (S (S i)) in
          ((rows ++ rows')%list, r)
      end
  end.

(** The lines written to the output file, and whether the run ended
    normally, for an output file that opens, takes every write and closes;
    [write_out_to] below is the function over a file that may fail. *)
Definition write_out (data : dataset) (rand : nat -> N)
  : list string * result unit :=
  let '(rows, r) := write_users data (map fst data) rand 0 in
  (header :: map line rows, r).

(** ** [write_out] over a file that may fail

    [sink k] tells whether the [k]-th operation on the output file goes
    through ([true]) or raises [OSError]: operation 0 is [open], then come
    the writes in order, the header first, and [close] is the last.  The
    lines given are those whose [out.write] returned. *)

(** The loop over a user's measurements, [k] being the number of the next
    file operation. *)
Fixpoint scan_to (sink : nat -> bool) (user : string)
    (home_latlon anon_home : string * string) (st : seg_state)
    (entries : history) (k : nat) : list row * result (seg_state * nat) :=
  match entries with
  | [] => ([], Ok (st, k))
  | ent :: rest =>
      match scan_entry user home_latlon anon_home st ent with
      | Raise e => ([], Raise e)
      | Ok (st', None) => scan_to sink user home_latlon anon_home st' rest k
      | Ok (st', Some w) =>
          if sink k then
            let '(rows, r) :=
              scan_to sink user home_latlon anon_home st' rest (S k) in
            (w :: rows, r)
          else ([], Raise OSError)
      end
  end.

Definition write_user_to (sink : nat -> bool) (data : dataset) (user : string)
    (draw_lat draw_lon : N) (k : nat) : list row * result (seg_state * nat) :=
  match find_home data user with
  | Raise e => ([], Raise e)
  | Ok home_latlon =>
      let anon_home_lat := anonymize (fst home_latlon) draw_lat in
      let anon_home_lon := anonymize (snd home_latlon) draw_lon in
      match lookup user data with
      | Raise e => ([], Raise e)
      | Ok entries =>
          scan_to sink user home_latlon (anon_home_lat, anon_home_lon)
                  initial_state entries k
      end
  end.

Fixpoint write_users_to (sink : nat -> bool) (data : dataset)
    (users : list string) (rand : nat -> N) (i k : nat)
  : list row * result nat :=
  match users with
  | [] => ([], Ok k)
  | user :: rest =>
      match write_user_to sink data user (rand i) (rand (S i)) k with
      | (rows, Raise e) => (rows, Raise e)
      | (rows, Ok (_, k')) =>
          let '(rows', r) := write_users_to sink data rest rand (S (S i)) k' in
          ((rows ++ rows')%list, r)
      end
  end.

Definition write_out_to (sink : nat -> bool) (data : dataset) (rand : nat -> N)
  : list string * result unit :=
  if sink 0%nat then
    if sink 1%nat then
      match write_users_to sink data (map fst data) rand 0 2 with
      | (rows, Ok k) =>
          (header :: map line rows, if sink k then Ok tt else Raise OSError)
      | (rows, Raise e) => (header :: map line rows, Raise e)
      end
    else ([], Raise OSError)
  else ([], Raise OSError).

(** * Vocabulary of the statements *)

Open Scope list_scope.

(** A coordinate both of whose strings read as finite floats. *)
Definition finite_coord (c : string * string) : bool :=
  match float_of_string (fst c), float_of_string (snd c) with
  | Ok x, Ok y => is_finite x && is_finite y
  | _, _ => false
  end.

Definition pair_dec (a b : string * string) : {a = b} + {a <> b}.
Proof. decide equality; apply string_dec. Defined.

(** A measurement with both coordinates present. *)
Definition is_valid (m : measurement) : bool :=
  negb ((latitude m =? EmptyString)%string
        || (longitude m =? EmptyString)%string).

(** The rounded coordinates of the valid measurements, in order. *)
Fixpoint valid_coordinates (entries : history) : result (list (string * string)) :=
  match entries with
  | [] => Ok []
  | (_, m) :: rest =>
      if is_valid m then
        c <- rounded_latlon (latitude m) (longitude m) ;;
        l <- valid_coordinates rest ;;
        Ok (c :: l)
      else valid_coordinates rest
  end.

(** No coordinate is strictly the most frequent: two different ones share
    the highest count. *)
Definition no_unique_mode (l : list (string * string)) : Prop :=
  exists a b, a <> b /\ In a l /\ In b l /\
    count_occ pair_dec l a = count_occ pair_dec l b /\
    forall c, (count_occ pair_dec l c <= count_occ pair_dec l a)%nat.

Definition example_tie : dataset :=
  [("u", [("2023-01-01 09:00:00", {| latitude := "40.0"; longitude := "-75.0" |});
          ("2023-01-01 09:05:00", {| latitude := EmptyString; longitude := "-75.0" |});
          ("2023-01-01 09:10:00", {| latitude := "41.0"; longitude := "-74.0" |})])].

(** A measurement whose coordinates [float] can read. *)
Definition readable (m : measurement) : bool :=
  match rounded_latlon (latitude m) (longitude m) with
  | Ok _ => true
  | Raise _ => false
  end.

(** Every valid measurement of the history holds decimal strings. *)
Definition decimal_history (entries : history) : Prop :=
  forall key m, In (key, m) entries -> is_valid m = true -> readable m = true.

(** The instant a date and a time denote, in seconds, as [within_tsi]
    reads them. *)
Definition instant (date time : string) : result Z :=
  t <- strptime (date ++ "-" ++ time)%string ;;
  Ok (Calendar.seconds t).

Definition written (user date time : string) (shown : string * string)
    (dwell : Z) : row :=
  {| row_user := user; row_date := date; row_time := time;
     row_lat := fst shown; row_lon := snd shown; row_time_at_loc := dwell |}.

(** The loop body from the tolerance test on, for a valid measurement read
    as date, time and rounded coordinate [c]. *)
Definition visit (user : string) (home anon : string * string) (st : seg_state)
    (date time : string) (c : string * string) : result (seg_state * option row) :=
  same <- is_same_place (as_latlon c) (prev_latlon st) ;;
  '(dwell, place) <-
    (if same : bool then
       inside <- within_tsi (prev_date st) (prev_time st) date time ;;
       Ok (if inside : bool then time_at_loc st + TSI else 0, prev_latlon st)
     else Ok (0, as_latlon c)) ;;
  home_hit <- is_same_place (as_latlon c) (as_latlon home) ;;
  Ok ({| time_at_loc := dwell; prev_time := time;
         prev_date := date; prev_latlon := place |},
      Some (written user date time (if home_hit : bool then anon else c) dwell)).

(** The instant of a measurement, from its key. *)
Definition ping_instant (key : string) : result Z :=
  '(date, time) <- reformat_key key ;;
  instant date time.

(** Valid measurements that all round to [c], the first at instant [t] and
    each [TSI] minutes after the one before. *)
Fixpoint run_at (c : string * string) (t : Z) (entries : history) : Prop :=
  match entries with
  | [] => True
  | (key, m) :: rest =>
      is_valid m = true
      /\ rounded_latlon (latitude m) (longitude m) = Ok c
      /\ ping_instant key = Ok t
      /\ run_at c (t + TSI * 60) rest
  end.

(** The values [k, k + TSI, k + 2 TSI, ...], [n] of them. *)
Definition dwell_from (k : Z) (n : nat) : list Z :=
  map (fun i => k + Z.of_nat i * TSI) (seq 0 n).

Definition example_run : history :=
  [("2023-01-01 09:05:00", {| latitude := "40.0001"; longitude := "-75.0000" |});
   ("2023-01-01 09:10:00", {| latitude := "40.0001"; longitude := "-75.0000" |})].

(** Row [r] was written for a valid measurement of [entries]: it shows the
    pair [anon] when the measurement's rounded coordinate is the same place
    as [home], and the rounded coordinate itself otherwise. *)
Definition row_from (home anon : string * string) (entries : history) (r : row)
  : Prop :=
  exists key m date time c home_hit,
    In (key, m) entries /\ is_valid m = true
    /\ reformat_key key = Ok (date, time)
    /\ rounded_latlon (latitude m) (longitude m) = Ok c
    /\ is_same_place (as_latlon c) (as_latlon home) = Ok home_hit
    /\ row_date r = date /\ row_time r = time
    /\ (row_lat r, row_lon r) = (if home_hit then anon else c).

(** What a row tells apart from the coordinate it shows. *)
Definition bookkeeping (r : row) : string * string * string * Z :=
  (row_user r, row_date r, row_time r, row_time_at_loc r).

Definition example_home : dataset :=
  [("u", [("2023-01-01 09:00:00", {| latitude := "40.00001"; longitude := "-75.0" |});
          ("2023-01-01 09:05:00", {| latitude := "40.0"; longitude := "-75.0" |});
          ("2023-01-01 09:07:00", {| latitude := "40.0"; longitude := EmptyString |});
          ("2023-01-01 09:20:00", {| latitude := "40.0001"; longitude := "-75.0" |});
          ("2023-01-01 09:25:00", {| latitude := "41.0"; longitude := "-74.0" |})])].

(** The value of a four-decimal text in ten-thousandths, exactly. *)
Definition ten_thousandths (s : string) : option Z :=
  let '(neg, body) := match s with
                      | String "-" r => (true, r)
                      | _ => (false, s)
                      end in
  match Str.split_once "." body with
  | Some (ip, fp) =>
      if Str.all_digits (ip ++ fp)%string && negb (ip =? EmptyString)%string
         && (String.length fp =? 4)%nat
      then let v := Z.of_N (Str.digits_value 0 (ip ++ fp)%string) in
           Some (if neg then - v else v)
      else None
  | None => None
  end.

(** The tolerance test as the specification words it: both decimal
    deltas of the rounded representations at most 0.0002. *)
Definition same_place_decimal (p q : string * string) : option bool :=
  match ten_thousandths (fst p), ten_thousandths (fst q),
        ten_thousandths (snd p), ten_thousandths (snd q) with
  | Some a0, Some b0, Some a1, Some b1 =>
      Some ((Z.abs (a0 - b0) <=? 2) && (Z.abs (a1 - b1) <=? 2))
  | _, _, _, _ => None
  end.

(** The valid measurements of a history, in order. *)
Definition valid_entries (entries : history) : history :=
  filter (fun e => is_valid (snd e)) entries.

(** Each value is 0 or the one before it plus [TSI], [k] being the value
    before the first. *)
Fixpoint clock_steps (k : Z) (ds : list Z) : Prop :=
  match ds with
  | [] => True
  | d :: r => (d = 0 \/ d = k + TSI) /\ clock_steps d r
  end.

(** A key whose date and time [strptime] can read. *)
Definition timed (key : string) : bool :=
  match ping_instant key with
  | Ok _ => true
  | Raise _ => false
  end.

(** A measurement [float] can read and whose rounded coordinate is not the
    same place as the initial [prev_latlon]. *)
Definition clear_of_initial (m : measurement) : bool :=
  match rounded_latlon (latitude m) (longitude m) with
  | Ok c =>
      match is_same_place (as_latlon c) (prev_latlon initial_state) with
      | Ok false => true
      | _ => false
      end
  | Raise _ => false
  end.

(** A history all of whose valid measurements are such, under such keys. *)
Definition scannable (entries : history) : bool :=
  forallb (fun e => negb (is_valid (snd e))
                    || (timed (fst e) && clear_of_initial (snd e))) entries.

(** The valid measurements of all users, user by user. *)
Definition all_valid_entries (data : dataset) : history :=
  flat_map (fun user => match lookup user data with
                        | Ok entries => valid_entries entries
                        | Raise _ => []
                        end) (map fst data).

(** A place both of whose components [float] reads. *)
Definition readable_place (p : latlon) : Prop :=
  exists x y, float (fst p) = Ok x /\ float (snd p) = Ok y.

(** A string in which the character [sep] does not occur. *)
Fixpoint free_of (sep : ascii) (s : string) : bool :=
  match s with
  | EmptyString => true
  | String c r => negb (Ascii.eqb c sep) && free_of sep r
  end.

(** The value of an unsigned four-decimal text in ten-thousandths. *)
Definition unsigned_ten_thousandths (body : string) : option N :=
  match Str.split_once "." body with
  | Some (ip, fp) =>
      if Str.all_digits (ip ++ fp)%string && negb (ip =? EmptyString)%string
         && (String.length fp =? 4)%nat
      then Some (Str.digits_value 0 (ip ++ fp)%string)
      else None
  | None => None
  end.

(** * Properties *)

(** ** The tolerance test on floats *)

Lemma margin_value : margin = S754_finite false 7378697629483821 (-65).
Proof. vm_compute. reflexivity. Qed.

Lemma SFabs_binary_normalize_opp (z e : Z) :
  SFabs (binary_normalize prec emax (- z) e false)
  = SFabs (binary_normalize prec emax z e false).
Proof.
  destruct z as [|p|p]; cbn [Z.opp binary_normalize]; try reflexivity;
    unfold binary_round, binary_round_aux;
    destruct (shl_align _ _ _) as [mz ez];
    destruct (shr_fexp _ _ _ _ _) as [mrs' e'];
    destruct (shr_fexp _ _ _ _ _) as [mrs'' e''];
    destruct (shr_m mrs'') as [|q|q]; try reflexivity;
    destruct (e'' <=? emax - prec); reflexivity.
Qed.

(** [abs(x - y)] is [abs(y - x)], bit for bit. *)
Lemma SFabs_SFsub_comm (x y : spec_float) :
  SFabs (SFsub prec emax x y) = SFabs (SFsub prec emax y x).
Proof.
  destruct x as [sx|sx| |sx mx ex], y as [sy|sy| |sy my ey];
    try (destruct sx, sy; reflexivity);
    try (destruct sx; reflexivity);
    try (destruct sy; reflexivity);
    try reflexivity.
  cbn [SFsub]. rewrite (Z.min_comm ey ex).
  rewrite <- SFabs_binary_normalize_opp. f_equal. f_equal. lia.
Qed.

Lemma within_margin_sym (x y : spec_float) :
  within_margin x y = within_margin y x.
Proof. unfold within_margin. now rewrite SFabs_SFsub_comm. Qed.

Lemma within_margin_refl (x : spec_float) :
  is_finite x = true -> within_margin x x = true.
Proof.
  unfold within_margin. destruct x as [s|s| |s m e]; try discriminate; intros _.
  - destruct s; reflexivity.
  - cbn [SFsub]. rewrite Z.sub_diag. reflexivity.
Qed.

(** ** Exceptions and [bind] *)

Lemma bind_Ok {A B : Type} (m : result A) (k : A -> result B) (b : B) :
  bind m k = Ok b <-> exists a, m = Ok a /\ k a = Ok b.
Proof.
  destruct m as [a|e]; cbn.
  - split; [intros H; now exists a | intros (a' & [= <-] & H); exact H].
  - split; [discriminate | intros (a' & [=] & _)].
Qed.

Ltac inv_bind H :=
  let a := fresh "a" in
  let Ha := fresh "Ha" in
  apply bind_Ok in H; destruct H as (a & Ha & H).

(** ** [is_same_place] *)

Lemma is_same_place_Ok (p q : latlon) (r : bool) :
  is_same_place p q = Ok r <->
  exists a0 b0 a1 b1,
    float (fst p) = Ok a0 /\ float (fst q) = Ok b0 /\
    float (snd p) = Ok a1 /\ float (snd q) = Ok b1 /\
    r = within_margin a0 b0 && within_margin a1 b1.
Proof.
  unfold is_same_place. split.
  - intros H. do 4 inv_bind H. injection H as <-.
    now eexists _, _, _, _; repeat split; eauto.
  - intros (a0 & b0 & a1 & b1 & -> & -> & -> & -> & ->). reflexivity.
Qed.

(** Swapping the two places changes neither whether the test returns nor
    what it returns. *)
Lemma is_same_place_sym (p q : latlon) (r : bool) :
  is_same_place p q = Ok r <-> is_same_place q p = Ok r.
Proof.
  rewrite !is_same_place_Ok. split;
    intros (a0 & b0 & a1 & b1 & H1 & H2 & H3 & H4 & ->);
    exists b0, a0, b1, a1; repeat split; auto;
    now rewrite (within_margin_sym a0), (within_margin_sym a1).
Qed.

Lemma is_same_place_refl (c : string * string) :
  finite_coord c = true -> is_same_place (as_latlon c) (as_latlon c) = Ok true.
Proof.
  unfold finite_coord. intros H. apply is_same_place_Ok. cbn.
  destruct (float_of_string (fst c)) as [x|]; try discriminate.
  destruct (float_of_string (snd c)) as [y|]; try discriminate.
  apply andb_prop in H as [Hx Hy].
  exists x, x, y, y. repeat split.
  now rewrite !within_margin_refl.
Qed.

(** A coordinate that reads as an infinite float is not the same place as
    itself, the difference being not a number. *)
Remark is_same_place_infinite :
  is_same_place (PStr "inf", PStr "0.0000") (PStr "inf", PStr "0.0000") = Ok false.
Proof. reflexivity. Qed.

(** ** [statistics.mode] *)

Section ModeFacts.
Context {A : Type} (eqb : A -> A -> bool).
Hypothesis eqb_eq : forall x y, eqb x y = true <-> x = y.
Variable eq_dec : forall x y : A, {x = y} + {x <> y}.

Lemma count_count_occ (x : A) (l : list A) :
  count eqb x l = count_occ eq_dec l x.
Proof.
  induction l as [|y r IH]; cbn; [reflexivity|].
  destruct (eq_dec y x) as [->|Hne].
  - rewrite (proj2 (eqb_eq x x) eq_refl), IH. reflexivity.
  - destruct (eqb x y) eqn:E.
    + apply eqb_eq in E. congruence.
    + now rewrite IH.
Qed.

Lemma In_distinct (x : A) (l : list A) : In x (distinct eqb l) <-> In x l.
Proof.
  induction l as [|y r IH]; cbn; [tauto|].
  rewrite filter_In, IH. split.
  - intros [H|[H _]]; auto.
  - intros [H|H]; auto.
    destruct (eq_dec y x) as [E|E]; auto. right. split; auto.
    destruct (eqb y x) eqn:Eb; auto. apply eqb_eq in Eb. contradiction.
Qed.

Lemma fold_max_ge (f : A -> nat) (l : list A) (a : A) :
  In a l -> (f a <= fold_right Nat.max 0 (map f l))%nat.
Proof.
  induction l as [|y r IH]; cbn; [tauto|].
  intros [->|H]; [lia | specialize (IH H); lia].
Qed.

Lemma fold_max_le (f : A -> nat) (l : list A) (n : nat) :
  (forall x, In x l -> f x <= n)%nat ->
  (fold_right Nat.max 0 (map f l) <= n)%nat.
Proof.
  induction l as [|y r IH]; cbn; intros H; [lia|].
  apply Nat.max_lub; auto.
Qed.

(** A most common value of [l] is in the table [modes l]. *)
Lemma In_modes (a : A) (l : list A) :
  In a l ->
  (forall c, count_occ eq_dec l c <= count_occ eq_dec l a)%nat ->
  In a (modes eqb l).
Proof.
  intros Ha Hmax. unfold modes. apply filter_In. split.
  - now apply In_distinct.
  - apply Nat.eqb_eq. unfold maxfreq. apply Nat.le_antisymm.
    + now apply (fold_max_ge (fun x => count eqb x l)).
    + apply fold_max_le. intros x _. rewrite !count_count_occ. apply Hmax.
Qed.

(** With two different most common values, the [mode] of old raises. *)
Lemma mode_unique_tie (a b : A) (l : list A) :
  a <> b -> In a (modes eqb l) -> In b (modes eqb l) ->
  mode_unique eqb l = Raise StatisticsError.
Proof.
  unfold mode_unique. intros Hne Ha Hb.
  destruct (modes eqb l) as [|x [|y r]]; try reflexivity.
  destruct Ha as [Ha|[]], Hb as [Hb|[]]. congruence.
Qed.

(** What [mode] returns is one of the values. *)
Lemma mode_In (x : A) (l : list A) : mode eqb l = Ok x -> In x l.
Proof.
  unfold mode. intros H.
  assert (Hx : In x (modes eqb l)).
  { destruct (modes eqb l) as [|y r]; try discriminate.
    injection H as ->. now left. }
  unfold modes in Hx. apply filter_In in Hx as [Hx _].
  now apply In_distinct.
Qed.
End ModeFacts.

Lemma pair_eqb_eq (a b : string * string) : pair_eqb a b = true <-> a = b.
Proof.
  destruct a as [a1 a2], b as [b1 b2]. unfold pair_eqb; cbn.
  rewrite andb_true_iff, !String.eqb_eq. split.
  - intros [-> ->]. reflexivity.
  - intros [= -> ->]. auto.
Qed.

(** ** The valid coordinates of a history *)

Lemma find_home_loop_valid_coordinates (entries : history) :
  forall latlons,
    find_home_loop entries latlons
    = (l <- valid_coordinates entries ;; Ok (latlons ++ l)%list).
Proof.
  induction entries as [|[key m] rest IH]; intros latlons; cbn.
  - now rewrite app_nil_r.
  - unfold is_valid.
    destruct ((latitude m =? EmptyString)%string
              || (longitude m =? EmptyString)%string); cbn.
    + apply IH.
    + destruct (rounded_latlon (latitude m) (longitude m)) as [[lat lon]|e]; cbn;
        [|reflexivity].
      rewrite IH.
      destruct (valid_coordinates rest) as [l|e]; cbn; [|reflexivity].
      now rewrite <- app_assoc.
Qed.

Lemma find_home_unfold (data : dataset) (user : string) (entries : history)
    (latlons : list (string * string)) :
  lookup user data = Ok entries ->
  valid_coordinates entries = Ok latlons ->
  find_home data user =
    match mode pair_eqb latlons with
    | Ok h => Ok h
    | Raise _ => match latlons with h :: _ => Ok h | [] => Raise IndexError end
    end.
Proof.
  intros Hl Hv. unfold find_home. rewrite Hl. cbn.
  rewrite find_home_loop_valid_coordinates, Hv. cbn.
  destruct (mode pair_eqb latlons) as [[a b]|e]; cbn; [reflexivity|].
  destruct latlons as [|[a b] r]; reflexivity.
Qed.

(** ** [find_home] *)

(** C1 fails on the code. With counts 1, 2, 2 no coordinate is strictly
    the most frequent, but [mode] does not raise on a tie: it returns the
    first of the two most common coordinates, the handler with
    [latlons[0]] is not reached, and [find_home] returns 40/-75 where the
    first valid coordinate is 42/-73. *)
Theorem find_home_tie_not_first :
  let m lat lon := {| latitude := lat; longitude := lon |} in
  let entries := [("2023-01-01 09:00:00", m "42" "-73");
                  ("2023-01-01 09:05:00", m "40" "-75");
                  ("2023-01-01 09:10:00", m "40" "-75");
                  ("2023-01-01 09:15:00", m "41" "-74");
                  ("2023-01-01 09:20:00", m "41" "-74")] in
  let latlons := [("42.0000", "-73.0000"); ("40.0000", "-75.0000");
                  ("40.0000", "-75.0000"); ("41.0000", "-74.0000");
                  ("41.0000", "-74.0000")] in
  valid_coordinates entries = Ok latlons
  /\ no_unique_mode latlons
  /\ hd_error latlons = Some ("42.0000", "-73.0000")
  /\ find_home [("u", entries)] "u" = Ok ("40.0000", "-75.0000").
Proof.
  cbn zeta. split; [reflexivity|]. split; [|split; [reflexivity|]].
  - exists ("40.0000", "-75.0000"), ("41.0000", "-74.0000").
    split; [discriminate|].
    split; [right; now left|].
    split; [do 3 right; now left|].
    split; [reflexivity|].
    intros c.
    change (count_occ pair_dec _ ("40.0000", "-75.0000")) with 2%nat.
    cbn [count_occ].
    destruct (pair_dec ("42.0000", "-73.0000") c) as [E1|H1],
             (pair_dec ("40.0000", "-75.0000") c) as [E2|H2],
             (pair_dec ("41.0000", "-74.0000") c) as [E3|H3];
      try (rewrite <- E1 in E2; discriminate E2);
      try (rewrite <- E1 in E3; discriminate E3);
      try (rewrite <- E2 in E3; discriminate E3);
      repeat constructor.
  - vm_compute. reflexivity.
Qed.

(** On that list the [mode] of old raises, and the handler would return
    the first coordinate; a tie that involves the first coordinate gives
    the first coordinate with either function. *)
Remark mode_on_ties :
  let l := [("42.0000", "-73.0000"); ("40.0000", "-75.0000");
            ("40.0000", "-75.0000"); ("41.0000", "-74.0000");
            ("41.0000", "-74.0000")] in
  mode_unique pair_eqb l = Raise StatisticsError
  /\ mode pair_eqb l = Ok ("40.0000", "-75.0000")
  /\ find_home example_tie "u" = Ok ("40.0000", "-75.0000").
Proof. repeat split; vm_compute; reflexivity. Qed.

Lemma valid_coordinates_returns (entries : history) :
  decimal_history entries ->
  exists latlons, valid_coordinates entries = Ok latlons.
Proof.
  unfold decimal_history.
  induction entries as [|[key m] rest IH]; intros Hd; cbn.
  - now exists [].
  - destruct IH as [l Hl].
    { intros k m' Hin. apply (Hd k). now right. }
    rewrite Hl. destruct (is_valid m) eqn:Hv.
    + assert (Hin : In (key, m) ((key, m) :: rest)) by now left.
      specialize (Hd key m Hin Hv). unfold readable in Hd.
      destruct (rounded_latlon (latitude m) (longitude m)) as [c|]; [|discriminate].
      now exists (c :: l).
    + now exists l.
Qed.

Lemma valid_coordinates_nonempty (entries : history) (latlons : list (string * string)) :
  valid_coordinates entries = Ok latlons ->
  (exists key m, In (key, m) entries /\ is_valid m = true) ->
  latlons <> [].
Proof.
  revert latlons. induction entries as [|[key m] rest IH]; intros latlons; cbn.
  - intros _ (k & m & [] & _).
  - intros H (k & m' & [[= -> ->]|Hin] & Hv).
    + rewrite Hv in H. do 2 inv_bind H. injection H as <-. discriminate.
    + destruct (is_valid m).
      * do 2 inv_bind H. injection H as <-. discriminate.
      * apply IH; eauto.
Qed.

(** C7. For a history with at least one valid measurement, its valid
    measurements holding decimal strings, [find_home] returns normally, and
    what it returns is one of the valid rounded coordinates; the fallback
    [latlons[0]] does not raise. *)
Theorem find_home_returns (data : dataset) (user : string) (entries : history) :
  lookup user data = Ok entries ->
  decimal_history entries ->
  (exists key m, In (key, m) entries /\ is_valid m = true) ->
  exists home latlons,
    valid_coordinates entries = Ok latlons /\ In home latlons
    /\ find_home data user = Ok home.
Proof.
  intros Hl Hd Hex.
  destruct (valid_coordinates_returns entries Hd) as [latlons Hv].
  pose proof (valid_coordinates_nonempty entries latlons Hv Hex) as Hne.
  rewrite (find_home_unfold data user entries latlons Hl Hv).
  destruct (mode pair_eqb latlons) as [h|e] eqn:Hm.
  - exists h, latlons. repeat split; auto.
    apply (mode_In pair_eqb pair_eqb_eq pair_dec). exact Hm.
  - destruct latlons as [|h r]; [congruence|].
    exists h, (h :: r). repeat split; auto. now left.
Qed.

(** Without a valid measurement the fallback [latlons[0]] raises. *)
Example find_home_no_valid_measurement :
  find_home [("u", [("2023-01-01 09:00:00",
                     {| latitude := EmptyString; longitude := "-75.0" |})])] "u"
  = Raise IndexError.
Proof. reflexivity. Qed.

Lemma find_home_returns_witness :
  exists home latlons,
    valid_coordinates
      [("2023-01-01 09:00:00", {| latitude := "40.0"; longitude := "-75.0" |});
       ("2023-01-01 09:05:00", {| latitude := EmptyString; longitude := "-75.0" |});
       ("2023-01-01 09:10:00", {| latitude := "41.0"; longitude := "-74.0" |})]
    = Ok latlons
    /\ In home latlons /\ find_home example_tie "u" = Ok home.
Proof.
  apply (find_home_returns example_tie "u").
  - reflexivity.
  - intros key m [[= <- <-]|[[= <- <-]|[[= <- <-]|[]]]] Hv;
      try reflexivity; discriminate Hv.
  - exists "2023-01-01 09:00:00", {| latitude := "40.0"; longitude := "-75.0" |}.
    split; [now left | reflexivity].
Defined.

(** ** Measurements without a coordinate *)

Lemma blank_test (m : measurement) :
  latitude m = EmptyString \/ longitude m = EmptyString ->
  ((latitude m =? EmptyString)%string || (longitude m =? EmptyString)%string) = true.
Proof.
  intros [H|H]; rewrite H; cbn; [reflexivity | apply orb_true_r].
Qed.

Lemma scan_skip_blank (user : string) (home anon : string * string)
    (key : string) (m : measurement) (before after : history) :
  latitude m = EmptyString \/ longitude m = EmptyString ->
  forall st,
    scan user home anon st (before ++ (key, m) :: after)
    = scan user home anon st (before ++ after).
Proof.
  intros Hb. induction before as [|ent rest IH]; intros st; cbn [app scan].
  - unfold scan_entry. rewrite (blank_test m Hb).
    now destruct (scan user home anon st after).
  - destruct (scan_entry user home anon st ent) as [[st' out]|e]; [|reflexivity].
    now rewrite IH.
Qed.

Lemma find_home_loop_skip_blank (key : string) (m : measurement)
    (before after : history) :
  latitude m = EmptyString \/ longitude m = EmptyString ->
  forall latlons,
    find_home_loop (before ++ (key, m) :: after) latlons
    = find_home_loop (before ++ after) latlons.
Proof.
  intros Hb. induction before as [|[k m'] rest IH]; intros latlons;
    cbn [app find_home_loop].
  - rewrite (blank_test m Hb). reflexivity.
  - destruct ((latitude m' =? EmptyString)%string
              || (longitude m' =? EmptyString)%string); [apply IH|].
    destruct (rounded_latlon (latitude m') (longitude m')) as [[lat lon]|e];
      cbn; [apply IH | reflexivity].
Qed.

(** C6. A measurement whose latitude or longitude is the empty string
    writes no row and leaves [time_at_loc], [prev_time], [prev_date] and
    [prev_latlon] as they were, so the scan goes on as if the measurement
    were absent; and it adds nothing to the list [latlons] whose most
    frequent element [find_home] takes, so the home is the same with or
    without it. *)
Theorem blank_measurement_ignored (user : string) (home anon : string * string)
    (st : seg_state) (key : string) (m : measurement) :
  latitude m = EmptyString \/ longitude m = EmptyString ->
  scan_entry user home anon st (key, m) = Ok (st, None)
  /\ (forall before after st0,
        scan user home anon st0 (before ++ (key, m) :: after)
        = scan user home anon st0 (before ++ after))
  /\ (forall before after latlons,
        find_home_loop (before ++ (key, m) :: after) latlons
        = find_home_loop (before ++ after) latlons)
  /\ (forall (data data' : dataset) (before after : history),
        lookup user data = Ok (before ++ (key, m) :: after) ->
        lookup user data' = Ok (before ++ after) ->
        find_home data user = find_home data' user).
Proof.
  intros Hb. split; [|split; [|split]].
  - unfold scan_entry. now rewrite (blank_test m Hb).
  - intros before after st0. now apply scan_skip_blank.
  - intros before after latlons. now apply find_home_loop_skip_blank.
  - intros data data' before after H H'. unfold find_home.
    rewrite H, H'. cbn. now rewrite find_home_loop_skip_blank.
Qed.

Lemma blank_measurement_ignored_witness :
  let m := {| latitude := EmptyString; longitude := "-75.0" |} in
  let st := {| time_at_loc := 10; prev_time := "09:00:00";
               prev_date := "01/01/2023";
               prev_latlon := (PStr "40.0000", PStr "-75.0000") |} in
  let key := "2023-01-01 09:05:00" in
  let home := ("40.0000", "-75.0000") in
  let anon := ("40.0003", "-75.0008") in
  scan_entry "u" home anon st (key, m) = Ok (st, None)
  /\ (forall before after st0,
        scan "u" home anon st0 (before ++ (key, m) :: after)
        = scan "u" home anon st0 (before ++ after))
  /\ (forall before after latlons,
        find_home_loop (before ++ (key, m) :: after) latlons
        = find_home_loop (before ++ after) latlons)
  /\ (forall (data data' : dataset) (before after : history),
        lookup "u" data = Ok (before ++ (key, m) :: after) ->
        lookup "u" data' = Ok (before ++ after) ->
        find_home data "u" = find_home data' "u").
Proof.
  intros m st key home anon.
  apply (blank_measurement_ignored "u" home anon st key m).
  left. reflexivity.
Defined.

(** ** [within_tsi] *)

Lemma within_tsi_instants (before_date before_time after_date after_time : string)
    (tb ta : Z) :
  instant before_date before_time = Ok tb ->
  instant after_date after_time = Ok ta ->
  within_tsi before_date before_time after_date after_time
  = Ok (ta - tb <=? TSI * 60 * 2).
Proof.
  unfold instant, within_tsi. intros Hb Ha.
  inv_bind Hb. inv_bind Ha. injection Hb as <-. injection Ha as <-.
  rewrite Ha0, Ha1. reflexivity.
Qed.

(** ** The loop body of [write_out] *)

Lemma is_valid_test (m : measurement) :
  is_valid m = true ->
  ((latitude m =? EmptyString)%string || (longitude m =? EmptyString)%string) = false.
Proof. unfold is_valid. now intros H%negb_true_iff. Qed.

Lemma scan_entry_valid (user : string) (home anon : string * string)
    (st : seg_state) (key : string) (m : measurement) :
  is_valid m = true ->
  scan_entry user home anon st (key, m)
  = ('(date, time) <- reformat_key key ;;
     c <- rounded_latlon (latitude m) (longitude m) ;;
     visit user home anon st date time c).
Proof.
  intros Hv. unfold scan_entry. rewrite (is_valid_test m Hv).
  destruct (reformat_key key) as [[date time]|e]; cbn; [|reflexivity].
  destruct (rounded_latlon (latitude m) (longitude m)) as [[lat lon]|e]; cbn;
    [|reflexivity].
  unfold visit.
  destruct (is_same_place (as_latlon (lat, lon)) (prev_latlon st)) as [same|e];
    cbn; [|reflexivity].
  destruct (if same then _ else _) as [[dwell place]|e]; cbn; [|reflexivity].
  destruct (is_same_place (as_latlon (lat, lon)) (as_latlon home)) as [[]|e];
    cbn; try reflexivity.
  now destruct anon.
Qed.

(** New location: the coordinate is not the same place as [prev_latlon]. *)
Lemma visit_new_location (user : string) (home anon : string * string)
    (st : seg_state) (date time : string) (c : string * string) (home_hit : bool) :
  is_same_place (as_latlon c) (prev_latlon st) = Ok false ->
  is_same_place (as_latlon c) (as_latlon home) = Ok home_hit ->
  visit user home anon st date time c
  = Ok ({| time_at_loc := 0; prev_time := time;
           prev_date := date; prev_latlon := as_latlon c |},
        Some (written user date time (if home_hit then anon else c) 0)).
Proof. intros H1 H2. unfold visit. rewrite H1. cbn. rewrite H2. reflexivity. Qed.

(** Same location: the clock runs on inside the sampling window and
    restarts outside it; [prev_latlon] stays. *)
Lemma visit_same_location (user : string) (home anon : string * string)
    (st : seg_state) (date time : string) (c : string * string)
    (inside home_hit : bool) :
  is_same_place (as_latlon c) (prev_latlon st) = Ok true ->
  within_tsi (prev_date st) (prev_time st) date time = Ok inside ->
  is_same_place (as_latlon c) (as_latlon home) = Ok home_hit ->
  visit user home anon st date time c
  = Ok ({| time_at_loc := if inside then time_at_loc st + TSI else 0;
           prev_time := time; prev_date := date;
           prev_latlon := prev_latlon st |},
        Some (written user date time (if home_hit then anon else c)
                (if inside then time_at_loc st + TSI else 0))).
Proof.
  intros H1 H2 H3. unfold visit. rewrite H1. cbn. rewrite H2. cbn.
  rewrite H3. reflexivity.
Qed.

(** What a returning visit has done. *)
Lemma visit_Ok (user : string) (home anon : string * string) (st st' : seg_state)
    (date time : string) (c : string * string) (out : option row) :
  visit user home anon st date time c = Ok (st', out) ->
  exists same home_hit,
    is_same_place (as_latlon c) (prev_latlon st) = Ok same
    /\ is_same_place (as_latlon c) (as_latlon home) = Ok home_hit
    /\ prev_latlon st' = (if same then prev_latlon st else as_latlon c)
    /\ prev_date st' = date /\ prev_time st' = time
    /\ (same = false -> time_at_loc st' = 0)
    /\ out = Some (written user date time (if home_hit then anon else c)
                     (time_at_loc st')).
Proof.
  unfold visit. intros H. inv_bind H. rename a into same.
  inv_bind H. destruct a as [dwell place]. inv_bind H. rename a into home_hit.
  injection H as <- <-. exists same, home_hit. cbn.
  destruct same.
  - inv_bind Ha0. injection Ha0 as <- <-. repeat split; auto. discriminate.
  - injection Ha0 as <- <-. repeat split; auto.
Qed.

Lemma ping_instant_Ok (key : string) (t : Z) :
  ping_instant key = Ok t ->
  exists date time, reformat_key key = Ok (date, time) /\ instant date time = Ok t.
Proof.
  unfold ping_instant. intros H. inv_bind H. destruct a as [date time].
  now exists date, time.
Qed.

(** The loop body on a valid measurement, once its key and coordinates are
    read. *)
Lemma scan_entry_visit (user : string) (home anon : string * string)
    (st : seg_state) (key : string) (m : measurement)
    (date time : string) (c : string * string) :
  is_valid m = true ->
  reformat_key key = Ok (date, time) ->
  rounded_latlon (latitude m) (longitude m) = Ok c ->
  scan_entry user home anon st (key, m) = visit user home anon st date time c.
Proof.
  intros Hv Hk Hc. rewrite (scan_entry_valid _ _ _ _ _ _ Hv), Hk. cbn.
  now rewrite Hc.
Qed.

Lemma within_tsi_not_later (before_date before_time after_date after_time : string)
    (tb ta : Z) :
  instant before_date before_time = Ok tb ->
  instant after_date after_time = Ok ta ->
  ta <= tb ->
  within_tsi before_date before_time after_date after_time = Ok true.
Proof.
  intros Hb Ha Hle. rewrite (within_tsi_instants _ _ _ _ tb ta Hb Ha).
  f_equal. apply Z.leb_le. unfold TSI. lia.
Qed.

(** C9. When the later measurement's timestamp is not later than the
    earlier one's (equal or before it), [within_tsi] returns [True]; a
    measurement at the same place as [prev_latlon] with such a timestamp
    therefore has [time_at_loc] increased by [TSI]. *)
Theorem not_later_timestamp_continues (user : string) (home anon : string * string)
    (st : seg_state) (key : string) (m : measurement)
    (date time : string) (c : string * string) (tp t : Z) (home_hit : bool) :
  is_valid m = true ->
  reformat_key key = Ok (date, time) ->
  rounded_latlon (latitude m) (longitude m) = Ok c ->
  instant (prev_date st) (prev_time st) = Ok tp ->
  instant date time = Ok t ->
  t <= tp ->
  is_same_place (as_latlon c) (prev_latlon st) = Ok true ->
  is_same_place (as_latlon c) (as_latlon home) = Ok home_hit ->
  within_tsi (prev_date st) (prev_time st) date time = Ok true
  /\ exists st' r,
       scan_entry user home anon st (key, m) = Ok (st', Some r)
       /\ row_time_at_loc r = time_at_loc st + TSI
       /\ time_at_loc st' = time_at_loc st + TSI.
Proof.
  intros Hv Hk Hc Hp Ht Hle Hsame Hhome.
  pose proof (within_tsi_not_later _ _ _ _ tp t Hp Ht Hle) as Hw.
  split; [exact Hw|].
  rewrite (scan_entry_visit _ _ _ _ _ _ date time c Hv Hk Hc).
  rewrite (visit_same_location _ _ _ _ _ _ _ true home_hit Hsame Hw Hhome).
  eexists _, _. split; [reflexivity|]. split; reflexivity.
Qed.

Lemma not_later_timestamp_continues_witness :
  let st := {| time_at_loc := 10; prev_time := "09:10:00";
               prev_date := "01/01/2023";
               prev_latlon := (PStr "40.0000", PStr "-75.0000") |} in
  let m := {| latitude := "40.00004"; longitude := "-75.0" |} in
  within_tsi "01/01/2023" "09:10:00" "01/01/2023" "09:05:00" = Ok true
  /\ exists st' r,
       scan_entry "u" ("41.0000", "-74.0000") ("41.0003", "-74.0008") st
         ("2023-01-01 09:05:00", m) = Ok (st', Some r)
       /\ row_time_at_loc r = 10 + TSI
       /\ time_at_loc st' = 10 + TSI.
Proof.
  intros st m.
  apply (not_later_timestamp_continues "u" ("41.0000", "-74.0000")
           ("41.0003", "-74.0008") st "2023-01-01 09:05:00" m
           "01/01/2023" "09:05:00" ("40.0000", "-75.0000")
           63808161000 63808160700 false).
  - reflexivity.
  - reflexivity.
  - vm_compute. reflexivity.
  - vm_compute. reflexivity.
  - vm_compute. reflexivity.
  - vm_compute. discriminate.
  - vm_compute. reflexivity.
  - vm_compute. reflexivity.
Defined.

(** After a valid measurement at a finite coordinate has been visited, the
    same coordinate is the same place as [prev_latlon]: either it was
    stored, or [prev_latlon] is the place it matched. *)
Lemma visit_then_same_place (user : string) (home anon : string * string)
    (st st' : seg_state) (date time : string) (c : string * string)
    (out : option row) :
  finite_coord c = true ->
  visit user home anon st date time c = Ok (st', out) ->
  is_same_place (as_latlon c) (prev_latlon st') = Ok true.
Proof.
  intros Hf H. apply visit_Ok in H.
  destruct H as (same & home_hit & Hs & _ & Hp & _).
  rewrite Hp. destruct same; [exact Hs | now apply is_same_place_refl].
Qed.

(** C5. Two consecutive valid measurements at the same rounded coordinate:
    the second one takes the same-location branch, and its [time_at_loc] is
    the first one's plus [TSI] when the elapsed time is at most [2 * TSI]
    minutes, and 0 otherwise; so an elapsed time of exactly [2 * TSI]
    minutes adds [TSI], and one second more resets the clock although the
    place has not changed. *)
Theorem consecutive_same_coordinate (user : string) (home anon : string * string)
    (st st1 : seg_state) (key1 key2 : string) (m1 m2 : measurement)
    (c : string * string) (t1 t2 : Z) (r1 : row) :
  is_valid m1 = true -> is_valid m2 = true ->
  rounded_latlon (latitude m1) (longitude m1) = Ok c ->
  rounded_latlon (latitude m2) (longitude m2) = Ok c ->
  finite_coord c = true ->
  ping_instant key1 = Ok t1 ->
  ping_instant key2 = Ok t2 ->
  scan_entry user home anon st (key1, m1) = Ok (st1, Some r1) ->
  exists st2 r2,
    scan_entry user home anon st1 (key2, m2) = Ok (st2, Some r2)
    /\ prev_latlon st2 = prev_latlon st1
    /\ time_at_loc st2 = row_time_at_loc r2
    /\ row_time_at_loc r2
       = (if t2 - t1 <=? 2 * TSI * 60 then row_time_at_loc r1 + TSI else 0)
    /\ (t2 - t1 = 2 * TSI * 60 -> row_time_at_loc r2 = row_time_at_loc r1 + TSI)
    /\ (t2 - t1 = 2 * TSI * 60 + 1 -> row_time_at_loc r2 = 0).
Proof.
  intros Hv1 Hv2 Hc1 Hc2 Hf Ht1 Ht2 H1.
  apply ping_instant_Ok in Ht1 as (d1 & tm1 & Hk1 & Hi1).
  apply ping_instant_Ok in Ht2 as (d2 & tm2 & Hk2 & Hi2).
  rewrite (scan_entry_visit _ _ _ _ _ _ d1 tm1 c Hv1 Hk1 Hc1) in H1.
  pose proof (visit_then_same_place _ _ _ _ _ _ _ _ _ Hf H1) as Hsame.
  apply visit_Ok in H1.
  destruct H1 as (same & home_hit & _ & Hhome & _ & Hpd & Hpt & _ & Hr1).
  injection Hr1 as ->. cbn [row_time_at_loc written].
  rewrite (scan_entry_visit _ _ _ _ _ _ d2 tm2 c Hv2 Hk2 Hc2).
  assert (Hw : within_tsi (prev_date st1) (prev_time st1) d2 tm2
               = Ok (t2 - t1 <=? TSI * 60 * 2)).
  { apply within_tsi_instants; [now rewrite Hpd, Hpt | exact Hi2]. }
  rewrite (visit_same_location _ _ _ _ _ _ _ _ home_hit Hsame Hw Hhome).
  replace (2 * TSI * 60) with (TSI * 60 * 2) by lia.
  eexists _, _. split; [reflexivity|]. cbn.
  repeat split.
  - intros ->. now rewrite Z.leb_refl.
  - intros ->. destruct (Z.leb_spec (TSI * 60 * 2 + 1) (TSI * 60 * 2)); [lia|reflexivity].
Qed.

Lemma consecutive_same_coordinate_witness :
  let m := {| latitude := "40.00004"; longitude := "-75.0" |} in
  let st := initial_state in
  let st1 := {| time_at_loc := 0; prev_time := "09:00:00";
                prev_date := "01/01/2023";
                prev_latlon := (PStr "40.0000", PStr "-75.0000") |} in
  let r1 := written "u" "01/01/2023" "09:00:00" ("40.0003", "-75.0008") 0 in
  exists st2 r2,
    scan_entry "u" ("40.0000", "-75.0000") ("40.0003", "-75.0008") st1
      ("2023-01-01 09:10:01", m) = Ok (st2, Some r2)
    /\ prev_latlon st2 = prev_latlon st1
    /\ time_at_loc st2 = row_time_at_loc r2
    /\ row_time_at_loc r2
       = (if 63808161001 - 63808160400 <=? 2 * TSI * 60
          then row_time_at_loc r1 + TSI else 0)
    /\ (63808161001 - 63808160400 = 2 * TSI * 60 ->
        row_time_at_loc r2 = row_time_at_loc r1 + TSI)
    /\ (63808161001 - 63808160400 = 2 * TSI * 60 + 1 ->
        row_time_at_loc r2 = 0).
Proof.
  intros m st st1 r1.
  apply (consecutive_same_coordinate "u" ("40.0000", "-75.0000")
           ("40.0003", "-75.0008") st st1
           "2023-01-01 09:00:00" "2023-01-01 09:10:01" m m
           ("40.0000", "-75.0000") 63808160400 63808161001 r1).
  - reflexivity.
  - reflexivity.
  - vm_compute. reflexivity.
  - vm_compute. reflexivity.
  - vm_compute. reflexivity.
  - vm_compute. reflexivity.
  - vm_compute. reflexivity.
  - vm_compute. reflexivity.
Defined.

(** Three measurements at one place, five and then fifteen minutes apart:
    0, 5, and 0 again after the gap. *)
Example scan_three_measurements :
  let m := {| latitude := "40.0000"; longitude := "-75.0000" |} in
  map row_time_at_loc
    (fst (scan "u" ("40.0000", "-75.0000") ("40.0003", "-75.0008") initial_state
            [("2023-01-01 09:00:00", m); ("2023-01-01 09:05:00", m);
             ("2023-01-01 09:20:00", m)]))
  = [0; 5; 0].
Proof. vm_compute. reflexivity. Qed.

(** The boundary of the sampling window, on [within_tsi] itself. *)
Example within_tsi_boundary :
  within_tsi "01/01/2023" "09:00:00" "01/01/2023" "09:10:00" = Ok true
  /\ within_tsi "01/01/2023" "09:00:00" "01/01/2023" "09:10:01" = Ok false.
Proof. split; vm_compute; reflexivity. Qed.

(** ** Runs at one coordinate *)

Lemma dwell_from_S (k : Z) (n : nat) :
  dwell_from k (S n) = k :: dwell_from (k + TSI) n.
Proof.
  unfold dwell_from. cbn [seq map]. f_equal; [lia|].
  rewrite <- seq_shift, map_map. apply map_ext. intros i. lia.
Qed.

(** Once the clock runs at [c], a run at [c] keeps it running. *)
Lemma run_continues (user : string) (home anon : string * string)
    (c : string * string) (home_hit : bool) (run : history) :
  is_same_place (as_latlon c) (as_latlon home) = Ok home_hit ->
  forall (st : seg_state) (t : Z),
    run_at c t run ->
    is_same_place (as_latlon c) (prev_latlon st) = Ok true ->
    instant (prev_date st) (prev_time st) = Ok (t - TSI * 60) ->
    exists rows st',
      scan user home anon st run = (rows, Ok st')
      /\ map row_time_at_loc rows
         = dwell_from (time_at_loc st + TSI) (List.length run).
Proof.
  intros Hhome. induction run as [|[key m] rest IH]; intros st t Hrun Hsame Hprev.
  - exists [], st. split; reflexivity.
  - destruct Hrun as (Hv & Hc & Ht & Hrest).
    apply ping_instant_Ok in Ht as (date & time & Hk & Hi).
    assert (Hw : within_tsi (prev_date st) (prev_time st) date time = Ok true).
    { rewrite (within_tsi_instants _ _ _ _ _ _ Hprev Hi). f_equal.
      apply Z.leb_le. unfold TSI. lia. }
    cbn [scan]. rewrite (scan_entry_visit _ _ _ _ _ _ date time c Hv Hk Hc).
    rewrite (visit_same_location _ _ _ _ _ _ _ true home_hit Hsame Hw Hhome).
    destruct (IH {| time_at_loc := time_at_loc st + TSI; prev_time := time;
                    prev_date := date; prev_latlon := prev_latlon st |}
                 (t + TSI * 60) Hrest Hsame) as (rows & st' & Hscan & Hrows).
    { cbn. rewrite Hi. f_equal. lia. }
    rewrite Hscan. exists (written user date time (if home_hit then anon else c)
                             (time_at_loc st + TSI) :: rows), st'.
    split; [reflexivity|].
    cbn [map List.length]. rewrite dwell_from_S, Hrows. reflexivity.
Qed.

(** C4, as the code has it. A run of [N >= 1] consecutive valid
    measurements at one rounded coordinate, each [TSI] minutes after the
    one before, whose first measurement is at a new location (its
    coordinate is not the same place as [prev_latlon]), is written with
    [time_at_loc] 0, [TSI], [2 TSI], ..., [(N - 1) TSI]. *)
Theorem run_dwell_values (user : string) (home anon : string * string)
    (st : seg_state) (c : string * string) (t : Z) (run : history)
    (home_hit : bool) :
  run <> [] ->
  run_at c t run ->
  finite_coord c = true ->
  is_same_place (as_latlon c) (prev_latlon st) = Ok false ->
  is_same_place (as_latlon c) (as_latlon home) = Ok home_hit ->
  exists rows st',
    scan user home anon st run = (rows, Ok st')
    /\ map row_time_at_loc rows = dwell_from 0 (List.length run).
Proof.
  intros Hne Hrun Hf Hnew Hhome.
  destruct run as [|[key m] rest]; [congruence|].
  destruct Hrun as (Hv & Hc & Ht & Hrest).
  apply ping_instant_Ok in Ht as (date & time & Hk & Hi).
  cbn [scan]. rewrite (scan_entry_visit _ _ _ _ _ _ date time c Hv Hk Hc).
  rewrite (visit_new_location _ _ _ _ _ _ _ home_hit Hnew Hhome).
  destruct (run_continues user home anon c home_hit rest Hhome
              {| time_at_loc := 0; prev_time := time; prev_date := date;
                 prev_latlon := as_latlon c |} (t + TSI * 60) Hrest)
    as (rows & st' & Hscan & Hrows).
  { cbn. now apply is_same_place_refl. }
  { cbn. rewrite Hi. f_equal. lia. }
  rewrite Hscan.
  exists (written user date time (if home_hit then anon else c) 0 :: rows), st'.
  split; [reflexivity|].
  cbn [map List.length]. rewrite dwell_from_S, Hrows. reflexivity.
Qed.

Lemma example_run_is_run :
  run_at ("40.0001", "-75.0000") 63808160700 example_run.
Proof. cbn. repeat split; vm_compute; reflexivity. Qed.

Lemma run_dwell_values_witness :
  exists rows st',
    scan "u" ("41.0000", "-74.0000") ("41.0003", "-74.0008")
      initial_state example_run = (rows, Ok st')
    /\ map row_time_at_loc rows = dwell_from 0 (List.length example_run).
Proof.
  apply (run_dwell_values "u" ("41.0000", "-74.0000") ("41.0003", "-74.0008")
           initial_state ("40.0001", "-75.0000") 63808160700 example_run false).
  - discriminate.
  - cbn. repeat split; vm_compute; reflexivity.
  - vm_compute. reflexivity.
  - vm_compute. reflexivity.
  - vm_compute. reflexivity.
Defined.

(** C4, as stated, fails: after a measurement at 40.0000, a run of two at
    40.0001 is at one rounded coordinate and spaced by [TSI], but 40.0001
    is the same place as the stored 40.0000, so the clock runs on and the
    run is written with 5 and 10, not 0 and 5. *)
Lemma run_after_near_place_counterexample :
  let before := [("2023-01-01 09:00:00",
                  {| latitude := "40.0000"; longitude := "-75.0000" |})] in
  let rows := fst (scan "u" ("41.0000", "-74.0000") ("41.0003", "-74.0008")
                     initial_state (before ++ example_run)) in
  run_at ("40.0001", "-75.0000") 63808160700 example_run
  /\ map row_time_at_loc rows = [0; 5; 10]
  /\ skipn (List.length before) (map row_time_at_loc rows)
     <> dwell_from 0 (List.length example_run).
Proof.
  cbn zeta.
  split; [exact example_run_is_run|].
  split; [vm_compute; reflexivity | vm_compute; discriminate].
Qed.

(** ** Home anonymisation *)

Lemma row_from_cons (home anon : string * string) (ent : string * measurement)
    (entries : history) (r : row) :
  row_from home anon entries r -> row_from home anon (ent :: entries) r.
Proof.
  intros (key & m & date & time & c & hit & Hin & H).
  exists key, m, date, time, c, hit. split; [now right | exact H].
Qed.

Lemma scan_entry_Ok (user : string) (home anon : string * string)
    (st st' : seg_state) (key : string) (m : measurement) (out : option row) :
  scan_entry user home anon st (key, m) = Ok (st', out) ->
  (is_valid m = false /\ st' = st /\ out = None)
  \/ (is_valid m = true /\
      exists date time c,
        reformat_key key = Ok (date, time)
        /\ rounded_latlon (latitude m) (longitude m) = Ok c
        /\ visit user home anon st date time c = Ok (st', out)).
Proof.
  destruct (is_valid m) eqn:Hv; intros H.
  - right. split; [reflexivity|].
    rewrite (scan_entry_valid _ _ _ _ _ _ Hv) in H.
    inv_bind H. destruct a as [date time]. inv_bind H.
    now exists date, time, a.
  - left. unfold scan_entry in H. unfold is_valid in Hv.
    apply negb_false_iff in Hv. rewrite Hv in H. injection H as <- <-. auto.
Qed.

Lemma scan_rows_from (user : string) (home anon : string * string)
    (entries : history) :
  forall st rows r,
    scan user home anon st entries = (rows, r) ->
    Forall (row_from home anon entries) rows.
Proof.
  induction entries as [|[key m] rest IH]; intros st rows r; cbn [scan].
  - intros [= <- _]. constructor.
  - destruct (scan_entry user home anon st (key, m)) as [[st' out]|e] eqn:He.
    + destruct (scan user home anon st' rest) as [rows' r'] eqn:Hs.
      intros [= <- _].
      assert (Hrest : Forall (row_from home anon ((key, m) :: rest)) rows').
      { eapply Forall_impl; [|exact (IH _ _ _ Hs)].
        intros w. apply row_from_cons. }
      apply scan_entry_Ok in He as [(_ & _ & ->)|(Hv & date & time & c & Hk & Hc & Hvis)];
        [exact Hrest|].
      apply visit_Ok in Hvis.
      destruct Hvis as (same & hit & _ & Hhome & _ & _ & _ & _ & ->).
      constructor; [|exact Hrest].
      exists key, m, date, time, c, hit. repeat split; auto; [now left|].
      cbn. now destruct (if hit then anon else c).
    + intros [= <- _]. constructor.
Qed.

Lemma visit_anon_independent (user : string) (home anon anon' : string * string)
    (st : seg_state) (date time : string) (c : string * string) :
  match visit user home anon st date time c,
        visit user home anon' st date time c with
  | Ok (s, o), Ok (s', o') =>
      s = s' /\ option_map bookkeeping o = option_map bookkeeping o'
  | Raise e, Raise e' => e = e'
  | _, _ => False
  end.
Proof.
  unfold visit.
  destruct (is_same_place (as_latlon c) (prev_latlon st)) as [same|e]; cbn;
    [|reflexivity].
  destruct (if same then _ else _) as [[dwell place]|e]; cbn; [|reflexivity].
  destruct (is_same_place (as_latlon c) (as_latlon home)) as [hit|e]; cbn;
    [|reflexivity].
  split; reflexivity.
Qed.

Lemma scan_entry_anon_independent (user : string)
    (home anon anon' : string * string) (st : seg_state)
    (ent : string * measurement) :
  match scan_entry user home anon st ent,
        scan_entry user home anon' st ent with
  | Ok (s, o), Ok (s', o') =>
      s = s' /\ option_map bookkeeping o = option_map bookkeeping o'
  | Raise e, Raise e' => e = e'
  | _, _ => False
  end.
Proof.
  destruct ent as [key m]. destruct (is_valid m) eqn:Hv.
  - rewrite !(scan_entry_valid _ _ _ _ _ _ Hv).
    destruct (reformat_key key) as [[date time]|e]; cbn; [|reflexivity].
    destruct (rounded_latlon (latitude m) (longitude m)) as [c|e]; cbn;
      [|reflexivity].
    apply visit_anon_independent.
  - unfold scan_entry. unfold is_valid in Hv. apply negb_false_iff in Hv.
    rewrite Hv. split; reflexivity.
Qed.

(** The states, the exceptions and the rows' dates, times and
    [time_at_loc] do not depend on the anonymised pair. *)
Lemma scan_anon_independent (user : string) (home anon anon' : string * string)
    (entries : history) :
  forall st,
    snd (scan user home anon st entries) = snd (scan user home anon' st entries)
    /\ map bookkeeping (fst (scan user home anon st entries))
       = map bookkeeping (fst (scan user home anon' st entries)).
Proof.
  induction entries as [|ent rest IH]; intros st; cbn [scan].
  - split; reflexivity.
  - pose proof (scan_entry_anon_independent user home anon anon' st ent) as H.
    destruct (scan_entry user home anon st ent) as [[s o]|e],
             (scan_entry user home anon' st ent) as [[s' o']|e'];
      try contradiction.
    + destruct H as [<- Ho]. specialize (IH s).
      destruct (scan user home anon s rest) as [rows r],
               (scan user home anon' s rest) as [rows' r'].
      cbn in IH |- *. destruct IH as [-> Hm]. split; [reflexivity|].
      destruct o as [w|], o' as [w'|]; cbn in Ho |- *; try discriminate;
        congruence.
    + subst. split; reflexivity.
Qed.

(** The digit [randint(0, 9)] draws, as [str] prints it. *)
Lemma str_randint_digit (draw : N) :
  Str.of_Z (randint 0 9 draw) = String (Str.digit_char draw) EmptyString.
Proof.
  unfold randint, Str.digit_char.
  change (9 - 0 + 1) with (Z.of_N 10). rewrite <- N2Z.inj_mod, Z.add_0_l.
  assert (H : (draw mod 10 < 10)%N) by now apply N.mod_upper_bound.
  generalize dependent (draw mod 10)%N. intros k H.
  assert (C : (k = 0 \/ k = 1 \/ k = 2 \/ k = 3 \/ k = 4 \/ k = 5
               \/ k = 6 \/ k = 7 \/ k = 8 \/ k = 9)%N) by lia.
  repeat (destruct C as [C|C]; [rewrite C; reflexivity|]).
  rewrite C. reflexivity.
Qed.

Lemma drop_last_snoc (s : string) (c : ascii) :
  Str.drop_last (s ++ String c EmptyString)%string = s.
Proof.
  induction s as [|a s IH]; [reflexivity|].
  cbn [append Str.drop_last]. rewrite IH.
  destruct s; reflexivity.
Qed.

Lemma string_app_assoc (a b c : string) :
  ((a ++ b) ++ c = a ++ (b ++ c))%string.
Proof. induction a as [|x a IH]; cbn; [reflexivity | now rewrite IH]. Qed.

(** A four-decimal text ends in the digit of its last decimal. *)
Lemma fixed4_last (neg : bool) (n : N) :
  exists body, fixed4 neg n = (body ++ String (Str.digit_char n) EmptyString)%string.
Proof.
  unfold fixed4.
  exists ((if neg then "-" else EmptyString) ++ Str.of_N (n / 10000) ++ "."
          ++ String (Str.digit_char (n / 1000)) (String (Str.digit_char (n / 100))
               (String (Str.digit_char (n / 10)) EmptyString)))%string.
  rewrite !string_app_assoc. reflexivity.
Qed.

(** Drawing the digit a four-decimal text ends in gives the text back. *)
Lemma anonymize_fixed4 (neg : bool) (n : N) :
  anonymize (fixed4 neg n) (n mod 10) = fixed4 neg n.
Proof.
  unfold anonymize. destruct (fixed4_last neg n) as [body ->].
  rewrite drop_last_snoc, str_randint_digit. unfold Str.digit_char.
  now rewrite N.Div0.mod_mod.
Qed.

Lemma anonymize_digit (home : string) (draw : N) :
  anonymize home draw
  = (Str.drop_last home ++ String (Str.digit_char draw) EmptyString)%string.
Proof. unfold anonymize. now rewrite str_randint_digit. Qed.

Lemma write_user_scan (data : dataset) (user : string) (draw_lat draw_lon : N)
    (home : string * string) (entries : history) :
  find_home data user = Ok home ->
  lookup user data = Ok entries ->
  write_user data user draw_lat draw_lon
  = scan user home (anonymize (fst home) draw_lat, anonymize (snd home) draw_lon)
         initial_state entries.
Proof. intros Hh Hl. unfold write_user. now rewrite Hh, Hl. Qed.

(** ** The home is one of the rounded coordinates *)

Lemma rounded_latlon_fmt4 (lat lon : string) (c : string * string) :
  rounded_latlon lat lon = Ok c -> exists x y, c = (fmt4 x, fmt4 y).
Proof.
  unfold rounded_latlon. intros H. do 2 inv_bind H. injection H as <-.
  now exists a, a0.
Qed.

Lemma valid_coordinates_fmt4 (entries : history) :
  forall latlons,
    valid_coordinates entries = Ok latlons ->
    Forall (fun c => exists x y, c = (fmt4 x, fmt4 y)) latlons.
Proof.
  induction entries as [|[key m] rest IH]; intros latlons; cbn.
  - intros [= <-]. constructor.
  - destruct (is_valid m); [|apply IH].
    intros H. do 2 inv_bind H. injection H as <-.
    constructor; [now apply rounded_latlon_fmt4 in Ha | now apply IH].
Qed.

Lemma find_home_In (data : dataset) (user : string) (entries : history)
    (home : string * string) :
  lookup user data = Ok entries ->
  find_home data user = Ok home ->
  exists latlons, valid_coordinates entries = Ok latlons /\ In home latlons.
Proof.
  intros Hl H. unfold find_home in H. rewrite Hl in H. cbn in H.
  rewrite find_home_loop_valid_coordinates in H.
  destruct (valid_coordinates entries) as [latlons|e]; [|discriminate].
  cbn in H. exists latlons. split; [reflexivity|].
  destruct (mode pair_eqb latlons) as [h|e] eqn:Hm.
  - cbn in H. injection H as <-. rewrite <- surjective_pairing.
    apply (mode_In pair_eqb pair_eqb_eq pair_dec). exact Hm.
  - destruct latlons as [|h r]; [discriminate|].
    cbn in H. injection H as <-. rewrite <- surjective_pairing. now left.
Qed.

(** A text ['%.4f'] printed that reads as a finite float is a
    four-decimal text. *)
Lemma fmt4_finite (x y : spec_float) :
  finite_coord (fmt4 x, fmt4 y) = true ->
  exists s n s' n', fmt4 x = fixed4 s n /\ fmt4 y = fixed4 s' n'.
Proof.
  unfold finite_coord. cbn [fst snd]. intros H.
  assert (Hx : exists s n, fmt4 x = fixed4 s n).
  { destruct x as [s|s| |s m e]; cbn [fmt4] in *; eauto.
    - destruct s; cbn in H; destruct (float_of_string (fmt4 y)); discriminate.
    - cbn in H; destruct (float_of_string (fmt4 y)); discriminate. }
  assert (Hy : exists s n, fmt4 y = fixed4 s n).
  { destruct y as [s|s| |s m e]; cbn [fmt4] in *; eauto.
    - destruct (float_of_string (fmt4 x)) as [fx|]; [|discriminate].
      destruct s; cbn in H; now rewrite andb_false_r in H.
    - destruct (float_of_string (fmt4 x)) as [fx|]; [|discriminate].
      cbn in H; now rewrite andb_false_r in H. }
  destruct Hx as (s & n & ->), Hy as (s' & n' & ->). now exists s, n, s', n'.
Qed.

(** What ['%.4f'] prints is never empty. *)
Lemma fmt4_last (x : spec_float) :
  exists body last, fmt4 x = (body ++ String last EmptyString)%string.
Proof.
  destruct x as [s|s| |s m e]; cbn [fmt4].
  - destruct (fixed4_last s 0) as [body ->]. eauto.
  - destruct s; [now exists "-in", "f"%char | now exists "in", "f"%char].
  - now exists "na", "n"%char.
  - destruct (fixed4_last s (scaled4 m e)) as [body ->]. eauto.
Qed.

(** C3. For each user one anonymised pair is made, the home's two strings
    with the last character replaced by a drawn digit, and the whole scan
    uses it: every row written for a measurement whose rounded coordinate
    is the same place as the home shows that pair, every other row shows
    the measurement's rounded coordinate; and the states of the scan and
    the rows' dates, times and [time_at_loc] are the same whatever the
    pair is, the comparisons being made on the real coordinate. *)
Theorem home_rows_anonymized (data : dataset) (user : string)
    (home : string * string) (entries : history) (draw_lat draw_lon : N) :
  find_home data user = Ok home ->
  lookup user data = Ok entries ->
  let anon := (anonymize (fst home) draw_lat, anonymize (snd home) draw_lon) in
  let out := write_user data user draw_lat draw_lon in
  out = scan user home anon initial_state entries
  /\ (exists body last,
        fst home = (body ++ String last EmptyString)%string
        /\ fst anon = (body ++ String (Str.digit_char draw_lat) EmptyString)%string)
  /\ (exists body last,
        snd home = (body ++ String last EmptyString)%string
        /\ snd anon = (body ++ String (Str.digit_char draw_lon) EmptyString)%string)
  /\ Forall (row_from home anon entries) (fst out)
  /\ forall anon',
       snd (scan user home anon' initial_state entries) = snd out
       /\ map bookkeeping (fst (scan user home anon' initial_state entries))
          = map bookkeeping (fst out).
Proof.
  intros Hh Hl anon out.
  assert (Hout : out = scan user home anon initial_state entries)
    by now apply write_user_scan.
  split; [exact Hout|].
  destruct (find_home_In data user entries home Hl Hh) as (latlons & Hv & Hin).
  pose proof (valid_coordinates_fmt4 entries latlons Hv) as Hall.
  rewrite Forall_forall in Hall. destruct (Hall home Hin) as (x & y & Exy).
  split.
  { destruct (fmt4_last x) as (body & last & E). exists body, last.
    unfold anon. rewrite Exy. cbn [fst]. rewrite anonymize_digit, E.
    now rewrite drop_last_snoc. }
  split.
  { destruct (fmt4_last y) as (body & last & E). exists body, last.
    unfold anon. rewrite Exy. cbn [snd]. rewrite anonymize_digit, E.
    now rewrite drop_last_snoc. }
  split.
  - rewrite Hout.
    destruct (scan user home anon initial_state entries) as [rows r] eqn:Hs.
    exact (scan_rows_from _ _ _ _ _ _ _ Hs).
  - intros anon'. rewrite Hout. apply scan_anon_independent.
Qed.

Lemma home_rows_anonymized_witness :
  let home := ("40.0000", "-75.0000") in
  let entries :=
    [("2023-01-01 09:00:00", {| latitude := "40.00001"; longitude := "-75.0" |});
     ("2023-01-01 09:05:00", {| latitude := "40.0"; longitude := "-75.0" |});
     ("2023-01-01 09:07:00", {| latitude := "40.0"; longitude := EmptyString |});
     ("2023-01-01 09:20:00", {| latitude := "40.0001"; longitude := "-75.0" |});
     ("2023-01-01 09:25:00", {| latitude := "41.0"; longitude := "-74.0" |})] in
  let anon := (anonymize (fst home) 3, anonymize (snd home) 8) in
  let out := write_user example_home "u" 3 8 in
  out = scan "u" home anon initial_state entries
  /\ (exists body last,
        fst home = (body ++ String last EmptyString)%string
        /\ fst anon = (body ++ String (Str.digit_char 3) EmptyString)%string)
  /\ (exists body last,
        snd home = (body ++ String last EmptyString)%string
        /\ snd anon = (body ++ String (Str.digit_char 8) EmptyString)%string)
  /\ Forall (row_from home anon entries) (fst out)
  /\ forall anon',
       snd (scan "u" home anon' initial_state entries) = snd out
       /\ map bookkeeping (fst (scan "u" home anon' initial_state entries))
          = map bookkeeping (fst out).
Proof.
  apply (home_rows_anonymized example_home "u" ("40.0000", "-75.0000")).
  - vm_compute. reflexivity.
  - reflexivity.
Defined.

(** The rows of that user: the three at home show the pair with the drawn
    digits 3 and 8, the last one its own coordinate. *)
Example example_home_rows :
  map (fun r => (row_lat r, row_lon r, row_time_at_loc r))
      (fst (write_user example_home "u" 3 8))
  = [("40.0003", "-75.0008", 0); ("40.0003", "-75.0008", 5);
     ("40.0003", "-75.0008", 0); ("41.0000", "-74.0000", 0)].
Proof. vm_compute. reflexivity. Qed.

(** With both draws 0 the rows of that user at home carry the home
    coordinate as it is. *)
Example example_home_rows_unmasked :
  map (fun r => (row_lat r, row_lon r))
      (fst (write_user example_home "u" 0 0))
  = [("40.0000", "-75.0000"); ("40.0000", "-75.0000");
     ("40.0000", "-75.0000"); ("41.0000", "-74.0000")].
Proof. vm_compute. reflexivity. Qed.

(** ** The initial [prev_latlon] *)

(** A first valid measurement away from the initial [prev_latlon] takes the
    new-location branch: it is written with [time_at_loc] 0 and its
    coordinate is stored. *)
Lemma first_visit_away_from_initial (user : string) (home anon : string * string)
    (date time : string) (c : string * string) (home_hit : bool) :
  is_same_place (as_latlon c) (PInt (-1), PInt (-1)) = Ok false ->
  is_same_place (as_latlon c) (as_latlon home) = Ok home_hit ->
  visit user home anon initial_state date time c
  = Ok ({| time_at_loc := 0; prev_time := time; prev_date := date;
           prev_latlon := as_latlon c |},
        Some (written user date time (if home_hit then anon else c) 0)).
Proof. intros H1 H2. now apply visit_new_location. Qed.

(** C2 fails on the code. The initial [prev_latlon] is [(-1, -1)], a pair
    of valid coordinates: a first valid measurement at latitude -1 and
    longitude -1 is the same place as it, takes the same-location branch,
    and [within_tsi], called with the empty [prev_date] and [prev_time],
    raises [ValueError]; no row is written for that user and the run
    stops. *)
Theorem initial_prev_latlon_is_a_coordinate :
  let m := {| latitude := "-1.0"; longitude := "-1.0" |} in
  let data := [("u", [("2023-01-01 09:00:00", m)])] in
  is_valid m = true
  /\ rounded_latlon (latitude m) (longitude m) = Ok ("-1.0000", "-1.0000")
  /\ is_same_place (as_latlon ("-1.0000", "-1.0000")) (prev_latlon initial_state)
     = Ok true
  /\ within_tsi (prev_date initial_state) (prev_time initial_state)
       "01/01/2023" "09:00:00" = Raise ValueError
  /\ (forall draw_lat draw_lon,
        write_user data "u" draw_lat draw_lon = ([], Raise ValueError))
  /\ forall rand, write_out data rand = ([header], Raise ValueError).
Proof.
  cbn zeta. repeat split; try (vm_compute; reflexivity);
    intros; vm_compute; reflexivity.
Qed.

(** ** The tolerance on decimals *)

(** C8 fails on the code at deltas of exactly 0.0002. The test compares
    binary floats: 40.0002 against 40.0000 is within the margin, but
    40.0001 against 39.9999, the same decimal delta, is not, the
    difference of the two floats being just above the float of 0.0002. *)
Theorem is_same_place_at_margin :
  let a := ("40.0002", "-75.0000") in
  let b := ("40.0000", "-75.0000") in
  let c := ("40.0001", "-75.0000") in
  let d := ("39.9999", "-75.0000") in
  same_place_decimal a b = Some true
  /\ is_same_place (as_latlon a) (as_latlon b) = Ok true
  /\ same_place_decimal c d = Some true
  /\ is_same_place (as_latlon c) (as_latlon d) = Ok false
  /\ is_same_place (as_latlon d) (as_latlon c) = Ok false.
Proof. cbn zeta. repeat split; vm_compute; reflexivity. Qed.

(** Reflexivity and symmetry do hold, and a delta of 0.0002001 is outside
    the margin. *)
Lemma is_same_place_refl_sym :
  (forall c, finite_coord c = true ->
             is_same_place (as_latlon c) (as_latlon c) = Ok true)
  /\ (forall p q r, is_same_place p q = Ok r <-> is_same_place q p = Ok r)
  /\ is_same_place (PStr "0.0002001", PStr "0") (PStr "0", PStr "0") = Ok false.
Proof.
  split; [exact is_same_place_refl|].
  split; [exact is_same_place_sym|].
  vm_compute. reflexivity.
Qed.

(** * More of the script *)

(** ** The scan of a history *)

Lemma visit_dwell (user : string) (home anon : string * string)
    (st st' : seg_state) (date time : string) (c : string * string)
    (out : option row) :
  visit user home anon st date time c = Ok (st', out) ->
  time_at_loc st' = 0 \/ time_at_loc st' = time_at_loc st + TSI.
Proof.
  unfold visit. intros H. inv_bind H. rename a into same.
  inv_bind H. destruct a as [dwell place]. inv_bind H.
  injection H as <- _. cbn. destruct same.
  - inv_bind Ha0. injection Ha0 as <- _.
    match goal with |- context [if ?b then _ else _] => destruct b end; auto.
  - injection Ha0 as <- _. auto.
Qed.

(** The scan of two stretches of a history: when the first stretch ends
    normally the second goes on from its state and its rows follow; when
    the first raises, its rows stay and the second is not looked at. *)
Theorem scan_app (user : string) (home anon : string * string)
    (before after : history) (st : seg_state) :
  scan user home anon st (before ++ after)
  = match scan user home anon st before with
    | (rows, Ok st') =>
        let '(rows', r) := scan user home anon st' after in (rows ++ rows', r)
    | (rows, Raise e) => (rows, Raise e)
    end.
Proof.
  revert st. induction before as [|ent rest IH]; intros st; cbn [app scan].
  - now destruct (scan user home anon st after).
  - destruct (scan_entry user home anon st ent) as [[st1 out]|e]; [|reflexivity].
    rewrite IH.
    destruct (scan user home anon st1 rest) as [rows [st2|e]]; [|reflexivity].
    destruct (scan user home anon st2 after) as [rows' r].
    now destruct out.
Qed.

(** A scan that ends normally has written one row for each valid
    measurement, in the order of the history: the row carries the user
    and the measurement's key as date and time. *)
Theorem scan_rows_in_order (user : string) (home anon : string * string)
    (entries : history) (st st' : seg_state) (rows : list row) :
  scan user home anon st entries = (rows, Ok st') ->
  Forall2 (fun r e => row_user r = user
                      /\ reformat_key (fst e) = Ok (row_date r, row_time r))
          rows (valid_entries entries)
  /\ List.length rows = List.length (valid_entries entries).
Proof.
  revert st rows. unfold valid_entries.
  induction entries as [|[key m] rest IH]; intros st rows; cbn [scan filter snd].
  - intros [= <- _]. split; [constructor | reflexivity].
  - destruct (scan_entry user home anon st (key, m)) as [[st1 out]|e] eqn:He;
      [|discriminate].
    destruct (scan user home anon st1 rest) as [rows' r'] eqn:Hs.
    intros [= <- ->]. destruct (IH _ _ Hs) as [IH1 IH2].
    apply scan_entry_Ok in He
      as [(Hv & _ & ->)|(Hv & date & time & c & Hk & Hc & Hvis)]; rewrite Hv.
    + split; assumption.
    + apply visit_Ok in Hvis.
      destruct Hvis as (same & hit & _ & _ & _ & _ & _ & _ & ->).
      split; [|cbn; now rewrite IH2].
      constructor; [|exact IH1]. split; [reflexivity | exact Hk].
Qed.

Lemma scan_rows_in_order_witness :
  let m := {| latitude := "40.0000"; longitude := "-75.0000" |} in
  let b := {| latitude := EmptyString; longitude := "-75.0000" |} in
  let entries := [("2023-01-01 09:00:00", m); ("2023-01-01 09:02:00", b);
                  ("2023-01-01 09:05:00", m)] in
  let st' := {| time_at_loc := 5; prev_time := "09:05:00";
                prev_date := "01/01/2023";
                prev_latlon := (PStr "40.0000", PStr "-75.0000") |} in
  let rows := [written "u" "01/01/2023" "09:00:00" ("40.0003", "-75.0008") 0;
               written "u" "01/01/2023" "09:05:00" ("40.0003", "-75.0008") 5] in
  Forall2 (fun r e => row_user r = "u"
                      /\ reformat_key (fst e) = Ok (row_date r, row_time r))
          rows (valid_entries entries)
  /\ List.length rows = List.length (valid_entries entries).
Proof.
  intros m b entries st' rows.
  apply (scan_rows_in_order "u" ("40.0000", "-75.0000") ("40.0003", "-75.0008")
           entries initial_state st' rows).
  vm_compute. reflexivity.
Defined.

Lemma clock_steps_multiples (k : Z) (ds : list Z) :
  0 <= k -> (TSI | k) -> clock_steps k ds ->
  Forall (fun d => 0 <= d /\ (TSI | d)) ds.
Proof.
  revert k. induction ds as [|d r IH]; intros k Hk Hd; cbn; [constructor|].
  intros [Hstep Hrest].
  assert (H : 0 <= d /\ (TSI | d)).
  { destruct Hstep as [->| ->].
    - split; [lia | apply Z.divide_0_r].
    - split; [unfold TSI; lia | apply Z.divide_add_r; [exact Hd | apply Z.divide_refl]]. }
  constructor; [exact H|]. now apply (IH d).
Qed.

(** Along the rows of a scan [time_at_loc] is 0 or the row before's plus
    [TSI], whether the scan ends normally or raises; from a state whose
    [time_at_loc] is a non-negative multiple of [TSI], as the initial 0 is,
    every written value is one. *)
Theorem scan_clock_steps (user : string) (home anon : string * string)
    (entries : history) (st : seg_state) :
  0 <= time_at_loc st -> (TSI | time_at_loc st) ->
  let ds := map row_time_at_loc (fst (scan user home anon st entries)) in
  clock_steps (time_at_loc st) ds
  /\ Forall (fun d => 0 <= d /\ (TSI | d)) ds.
Proof.
  intros Hk Hd ds.
  assert (H : clock_steps (time_at_loc st) ds).
  { subst ds. clear Hk Hd. revert st.
    induction entries as [|[key m] rest IH]; intros st; cbn [scan]; [exact I|].
    destruct (scan_entry user home anon st (key, m)) as [[st1 out]|e] eqn:He;
      [|exact I].
    specialize (IH st1).
    destruct (scan user home anon st1 rest) as [rows' r'].
    apply scan_entry_Ok in He
      as [(Hv & -> & ->)|(Hv & date & time & c & Hk & Hc & Hvis)].
    - exact IH.
    - pose proof (visit_dwell _ _ _ _ _ _ _ _ _ Hvis) as Hstep.
      apply visit_Ok in Hvis.
      destruct Hvis as (same & hit & _ & _ & _ & _ & _ & _ & ->).
      cbn. split; assumption. }
  split; [exact H | now apply (clock_steps_multiples (time_at_loc st))].
Qed.

Lemma scan_clock_steps_witness :
  let ds := map row_time_at_loc
              (fst (scan "u" ("41.0000", "-74.0000") ("41.0003", "-74.0008")
                      initial_state example_run)) in
  clock_steps (time_at_loc initial_state) ds
  /\ Forall (fun d => 0 <= d /\ (TSI | d)) ds.
Proof.
  apply (scan_clock_steps "u" ("41.0000", "-74.0000") ("41.0003", "-74.0008")
           example_run initial_state).
  - cbn. lia.
  - apply Z.divide_0_r.
Defined.

(** ** [find_home]: the unique most frequent coordinate, and the errors *)

Section ModeUnique.
Context {A : Type} (eqb : A -> A -> bool).
Hypothesis eqb_eq : forall x y, eqb x y = true <-> x = y.
Variable eq_dec : forall x y : A, {x = y} + {x <> y}.

Lemma NoDup_distinct (l : list A) : NoDup (distinct eqb l).
Proof.
  induction l as [|x r IH]; cbn; constructor.
  - rewrite filter_In. intros [_ H].
    rewrite (proj2 (eqb_eq x x) eq_refl) in H. discriminate.
  - now apply NoDup_filter.
Qed.

Lemma NoDup_all_equal (a : A) (l : list A) :
  NoDup l -> In a l -> (forall x, In x l -> x = a) -> l = [a].
Proof.
  intros Hn Ha Hall. destruct l as [|x [|y r]].
  - destruct Ha.
  - now rewrite (Hall x (or_introl eq_refl)).
  - exfalso. inversion Hn as [|? ? Hx _]; subst. apply Hx. left.
    rewrite (Hall x), (Hall y); auto; [right; now left | now left].
Qed.

(** A value seen strictly more often than every other one is what [mode]
    returns. *)
Lemma mode_strict (a : A) (l : list A) :
  In a l ->
  (forall c, c <> a -> count_occ eq_dec l c < count_occ eq_dec l a)%nat ->
  mode eqb l = Ok a.
Proof.
  intros Ha Hstrict.
  assert (Hmax : forall c, (count_occ eq_dec l c <= count_occ eq_dec l a)%nat).
  { intros c. destruct (eq_dec c a) as [->|Hne]; [lia|].
    specialize (Hstrict c Hne). lia. }
  pose proof (In_modes eqb eqb_eq eq_dec a l Ha Hmax) as Hin.
  assert (Hall : forall x, In x (modes eqb l) -> x = a).
  { intros x Hx. destruct (eq_dec x a) as [E|Hne]; [exact E|exfalso].
    unfold modes in Hx, Hin. apply filter_In in Hx as [_ Hx].
    apply filter_In in Hin as [_ Hin'].
    apply Nat.eqb_eq in Hx, Hin'.
    rewrite !(count_count_occ eqb eqb_eq eq_dec) in *.
    specialize (Hstrict x Hne). lia. }
  assert (Hnd : NoDup (modes eqb l)) by (apply NoDup_filter, NoDup_distinct).
  unfold mode. now rewrite (NoDup_all_equal a _ Hnd Hin Hall).
Qed.
End ModeUnique.

(** When one rounded coordinate occurs strictly more often among the
    valid measurements than every other, [find_home] returns it, wherever
    in the history it occurs. *)
Theorem find_home_most_frequent (data : dataset) (user : string)
    (entries : history) (latlons : list (string * string))
    (a : string * string) :
  lookup user data = Ok entries ->
  valid_coordinates entries = Ok latlons ->
  In a latlons ->
  (forall c, c <> a ->
             count_occ pair_dec latlons c < count_occ pair_dec latlons a)%nat ->
  find_home data user = Ok a.
Proof.
  intros Hl Hv Ha Hstrict.
  rewrite (find_home_unfold data user entries latlons Hl Hv).
  now rewrite (mode_strict pair_eqb pair_eqb_eq pair_dec a latlons Ha Hstrict).
Qed.

Lemma find_home_most_frequent_witness :
  find_home
    [("u", [("2023-01-01 09:00:00", {| latitude := "41.0"; longitude := "-74.0" |});
            ("2023-01-01 09:05:00", {| latitude := "40.0"; longitude := "-75.0" |});
            ("2023-01-01 09:10:00", {| latitude := "40.0"; longitude := "-75.0" |})])]
    "u"
  = Ok ("40.0000", "-75.0000").
Proof.
  apply (find_home_most_frequent _ "u"
           [("2023-01-01 09:00:00", {| latitude := "41.0"; longitude := "-74.0" |});
            ("2023-01-01 09:05:00", {| latitude := "40.0"; longitude := "-75.0" |});
            ("2023-01-01 09:10:00", {| latitude := "40.0"; longitude := "-75.0" |})]
           [("41.0000", "-74.0000"); ("40.0000", "-75.0000");
            ("40.0000", "-75.0000")]).
  - reflexivity.
  - reflexivity.
  - right. now left.
  - intros c Hne.
    change (count_occ pair_dec
              [("41.0000", "-74.0000"); ("40.0000", "-75.0000");
               ("40.0000", "-75.0000")] ("40.0000", "-75.0000")) with 2%nat.
    cbn [count_occ].
    destruct (pair_dec ("40.0000", "-75.0000") c) as [E|_];
      [now symmetry in E|].
    destruct (pair_dec ("41.0000", "-74.0000") c); constructor.
    constructor.
Defined.

Lemma valid_coordinates_none (entries : history) :
  valid_entries entries = [] -> valid_coordinates entries = Ok [].
Proof.
  unfold valid_entries.
  induction entries as [|[key m] rest IH]; cbn [filter valid_coordinates snd];
    [reflexivity|].
  destruct (is_valid m); [discriminate | exact IH].
Qed.

(** For a user none of whose measurements has both coordinates (no
    measurement at all included), [find_home] raises [IndexError] at
    [latlons[0]], and so does the user's turn in [write_out], before any
    row. *)
Theorem find_home_without_valid (data : dataset) (user : string)
    (entries : history) :
  lookup user data = Ok entries ->
  valid_entries entries = [] ->
  find_home data user = Raise IndexError
  /\ forall draw_lat draw_lon,
       write_user data user draw_lat draw_lon = ([], Raise IndexError).
Proof.
  intros Hl Hn.
  assert (H : find_home data user = Raise IndexError).
  { rewrite (find_home_unfold data user entries [] Hl
               (valid_coordinates_none entries Hn)).
    reflexivity. }
  split; [exact H|]. intros dlat dlon. unfold write_user. now rewrite H.
Qed.

Lemma find_home_without_valid_witness :
  let data := [("u", [("2023-01-01 09:00:00",
                       {| latitude := "40.0"; longitude := EmptyString |})])] in
  find_home data "u" = Raise IndexError
  /\ forall draw_lat draw_lon,
       write_user data "u" draw_lat draw_lon = ([], Raise IndexError).
Proof.
  intros data.
  apply (find_home_without_valid data "u"
           [("2023-01-01 09:00:00",
             {| latitude := "40.0"; longitude := EmptyString |})]);
    reflexivity.
Defined.

Lemma lookup_absent {A : Type} (k : string) (d : list (string * A)) :
  ~ In k (map fst d) -> lookup k d = Raise KeyError.
Proof.
  induction d as [|[k' v] r IH]; cbn; [reflexivity|].
  intros H. destruct (String.eqb_spec k k') as [->|_].
  - exfalso. apply H. now left.
  - apply IH. intros Hin. apply H. now right.
Qed.

Lemma lookup_present {A : Type} (k : string) (d : list (string * A)) :
  In k (map fst d) -> exists v, lookup k d = Ok v /\ In (k, v) d.
Proof.
  induction d as [|[k' v] r IH]; cbn; [intros []|].
  intros H. destruct (String.eqb_spec k k') as [->|Hne].
  - exists v. split; [reflexivity | now left].
  - destruct H as [E|H]; [congruence|].
    destruct (IH H) as (w & Hw & Hin). exists w. split; [exact Hw | now right].
Qed.

(** ** Which exceptions the library routines raise *)

Lemma float_of_unsigned_raises (neg : bool) (body : string) (e : exn) :
  float_of_unsigned neg body = Raise e -> e = ValueError.
Proof.
  unfold float_of_unsigned.
  destruct (Str.split_once "." body) as [[i f]|];
    match goal with |- context [if ?b then _ else _] => destruct b end;
    now intros [=].
Qed.

Lemma float_of_string_raises (s : string) (e : exn) :
  float_of_string s = Raise e -> e = ValueError.
Proof.
  unfold float_of_string.
  destruct (s =? "nan")%string; [discriminate|].
  destruct (s =? "inf")%string; [discriminate|].
  destruct (s =? "-inf")%string; [discriminate|].
  destruct s as [|c r]; [apply float_of_unsigned_raises|].
  destruct c as [[] [] [] [] [] [] [] []]; apply float_of_unsigned_raises.
Qed.

Lemma rounded_latlon_raises (lat lon : string) (e : exn) :
  rounded_latlon lat lon = Raise e -> e = ValueError.
Proof.
  unfold rounded_latlon.
  destruct (float_of_string lat) as [x|e1] eqn:H1; cbn.
  - destruct (float_of_string lon) as [y|e2] eqn:H2; cbn; [discriminate|].
    intros [= <-]. exact (float_of_string_raises _ _ H2).
  - intros [= <-]. exact (float_of_string_raises _ _ H1).
Qed.

Lemma valid_coordinates_raises (entries : history) (e : exn) :
  valid_coordinates entries = Raise e -> e = ValueError.
Proof.
  induction entries as [|[key m] rest IH]; cbn; [discriminate|].
  destruct (is_valid m); [|exact IH].
  destruct (rounded_latlon (latitude m) (longitude m)) as [c|e1] eqn:Hc; cbn.
  - destruct (valid_coordinates rest); cbn; [discriminate|].
    intros [= <-]. now apply IH.
  - intros [= <-]. exact (rounded_latlon_raises _ _ _ Hc).
Qed.

(** What [find_home] raises: [KeyError] exactly for a user that is not a
    key of the data, [IndexError] exactly for a user none of whose
    measurements is valid, and otherwise only the [ValueError] of a
    coordinate [float] cannot read. *)
Theorem find_home_errors (data : dataset) (user : string) (e : exn) :
  find_home data user = Raise e ->
  (e = KeyError /\ ~ In user (map fst data))
  \/ (e = IndexError
      /\ exists entries, lookup user data = Ok entries
                         /\ valid_entries entries = [])
  \/ (e = ValueError
      /\ exists entries, lookup user data = Ok entries
                         /\ valid_coordinates entries = Raise ValueError).
Proof.
  intros H. destruct (in_dec string_dec user (map fst data)) as [Hin|Hout].
  - right. destruct (lookup_present user data Hin) as (entries & Hl & _).
    unfold find_home in H. rewrite Hl in H. cbn in H.
    rewrite find_home_loop_valid_coordinates in H.
    destruct (valid_coordinates entries) as [l|e1] eqn:Hv; cbn in H.
    + left. destruct (mode pair_eqb l); cbn in H; [discriminate|].
      destruct l as [|c l]; cbn in H; [|discriminate].
      injection H as <-. split; [reflexivity|]. exists entries.
      split; [exact Hl|]. revert Hv. clear. unfold valid_entries.
      induction entries as [|[key m] rest IH]; cbn [filter valid_coordinates snd];
        [reflexivity|].
      destruct (is_valid m); [|exact IH].
      intros Hv. do 2 inv_bind Hv. discriminate.
    + right. injection H as <-.
      pose proof (valid_coordinates_raises _ _ Hv) as ->.
      split; [reflexivity|]. now exists entries.
  - left. unfold find_home in H. rewrite (lookup_absent user data Hout) in H.
    injection H as <-. now split.
Qed.

Lemma find_home_errors_witness :
  (KeyError = KeyError /\ ~ In "v" (map fst example_home))
  \/ (KeyError = IndexError
      /\ exists entries, lookup "v" example_home = Ok entries
                         /\ valid_entries entries = [])
  \/ (KeyError = ValueError
      /\ exists entries, lookup "v" example_home = Ok entries
                         /\ valid_coordinates entries = Raise ValueError).
Proof.
  apply (find_home_errors example_home "v" KeyError). reflexivity.
Defined.

(** ** What ['%.4f'] prints, [float] reads *)

Lemma is_digit_digit_char (d : N) : Str.is_digit (Str.digit_char d) = true.
Proof.
  unfold Str.digit_char.
  assert (H : (d mod 10 < 10)%N) by now apply N.mod_upper_bound.
  generalize dependent (d mod 10)%N. intros k H.
  assert (C : (k = 0 \/ k = 1 \/ k = 2 \/ k = 3 \/ k = 4 \/ k = 5
               \/ k = 6 \/ k = 7 \/ k = 8 \/ k = 9)%N) by lia.
  repeat (destruct C as [C|C]; [rewrite C; reflexivity|]).
  rewrite C. reflexivity.
Qed.

Lemma all_digits_string_of_uint (d : Decimal.uint) :
  Str.all_digits (NilEmpty.string_of_uint d) = true.
Proof. induction d; cbn; auto. Qed.

Lemma of_N_digits (n : N) :
  exists c r, Str.of_N n = String c r
              /\ Str.is_digit c = true /\ Str.all_digits r = true.
Proof.
  unfold Str.of_N, NilZero.string_of_uint.
  pose proof (all_digits_string_of_uint (N.to_uint n)) as H.
  destruct (N.to_uint n); cbn in H |- *;
    eexists _, _; repeat split; try reflexivity; exact H.
Qed.

Lemma all_digits_app (a b : string) :
  Str.all_digits (a ++ b)%string = Str.all_digits a && Str.all_digits b.
Proof.
  induction a as [|c a IH]; cbn; [reflexivity|].
  now rewrite IH, andb_assoc.
Qed.

Lemma is_digit_not_point (c : ascii) :
  Str.is_digit c = true -> Ascii.eqb c "." = false.
Proof. destruct c as [[] [] [] [] [] [] [] []]; cbn; congruence. Qed.

Lemma split_once_point (a b : string) :
  Str.all_digits a = true ->
  Str.split_once "." (a ++ String "." b)%string = Some (a, b).
Proof.
  induction a as [|c a IH]; cbn; [reflexivity|].
  intros H. apply andb_prop in H as [Hc Ha].
  now rewrite (is_digit_not_point c Hc), (IH Ha).
Qed.

Lemma float_of_unsigned_decimal (neg : bool) (c : ascii) (r f : string) :
  Str.is_digit c = true -> Str.all_digits r = true -> Str.all_digits f = true ->
  float_of_unsigned neg (String c r ++ String "." f)%string
  = Ok (decimal_to_float neg (Str.digits_value 0 (String c r ++ f)%string)
          (String.length f)).
Proof.
  intros Hc Hr Hf. unfold float_of_unsigned.
  rewrite split_once_point by (cbn; now rewrite Hc, Hr).
  rewrite all_digits_app. cbn [Str.all_digits]. rewrite Hc, Hr, Hf.
  reflexivity.
Qed.

(** A four-decimal text reads as the float of its digits over 10^4. *)
Lemma float_of_string_fixed4 (neg : bool) (n : N) :
  exists x, float_of_string (fixed4 neg n) = Ok x.
Proof.
  unfold fixed4. destruct (of_N_digits (n / 10000)) as (c & r & -> & Hc & Hr).
  set (f := String (Str.digit_char (n / 1000)) _).
  assert (Hf : Str.all_digits f = true).
  { subst f. cbn. now rewrite !is_digit_digit_char. }
  clearbody f. destruct neg.
  - change (("-" ++ String c r ++ "." ++ f)%string)
      with (String "-" (String c r ++ String "." f)%string).
    eexists. unfold float_of_string.
    replace (String "-" (String c r ++ String "." f) =? "nan")%string
      with false by reflexivity.
    replace (String "-" (String c r ++ String "." f) =? "inf")%string
      with false by reflexivity.
    replace (String "-" (String c r ++ String "." f) =? "-inf")%string
      with false
      by (destruct c as [[] [] [] [] [] [] [] []]; try discriminate Hc; reflexivity).
    now apply float_of_unsigned_decimal.
  - change ((EmptyString ++ String c r ++ "." ++ f)%string)
      with (String c r ++ String "." f)%string.
    eexists. unfold float_of_string.
    destruct c as [[] [] [] [] [] [] [] []]; try discriminate Hc;
      cbn [append String.eqb Ascii.eqb Bool.eqb andb];
      now apply float_of_unsigned_decimal.
Qed.

Lemma float_of_string_fmt4 (x : spec_float) :
  exists y, float_of_string (fmt4 x) = Ok y.
Proof.
  destruct x as [s|s| |s m e]; cbn [fmt4].
  - apply float_of_string_fixed4.
  - destruct s; eexists; reflexivity.
  - eexists; reflexivity.
  - apply float_of_string_fixed4.
Qed.

(** A rounded coordinate can be handed to [is_same_place]. *)
Lemma rounded_latlon_readable (lat lon : string) (c : string * string) :
  rounded_latlon lat lon = Ok c ->
  exists x y, float (fst (as_latlon c)) = Ok x /\ float (snd (as_latlon c)) = Ok y.
Proof.
  intros H. apply rounded_latlon_fmt4 in H as (x & y & ->). cbn.
  destruct (float_of_string_fmt4 x) as [x' ->].
  destruct (float_of_string_fmt4 y) as [y' ->]. now exists x', y'.
Qed.

(** ** Which exceptions escape [write_out] *)

Lemma reformat_key_raises (key : string) (e : exn) :
  reformat_key key = Raise e -> e = ValueError.
Proof.
  unfold reformat_key, split_entry, split_date.
  destruct (Str.split_once " " key) as [[date time]|]; cbn; [|now intros [=]].
  destruct (Str.split "-" date) as [|y [|mo [|d [|x r]]]]; cbn; now intros [=].
Qed.

Lemma strptime_raises (s : string) (e : exn) :
  strptime s = Raise e -> e = ValueError.
Proof.
  unfold strptime. destruct (parse_fields s) as [t|]; [|now intros [=]].
  destruct (Calendar.valid t); now intros [=].
Qed.

Lemma within_tsi_raises (bd bt ad at' : string) (e : exn) :
  within_tsi bd bt ad at' = Raise e -> e = ValueError.
Proof.
  unfold within_tsi.
  destruct (strptime (bd ++ "-" ++ bt)%string) as [tb|e1] eqn:H1; cbn [bind].
  - destruct (strptime (ad ++ "-" ++ at')%string) as [ta|e2] eqn:H2; cbn [bind];
      [discriminate|].
    intros [= <-]. exact (strptime_raises _ _ H2).
  - intros [= <-]. exact (strptime_raises _ _ H1).
Qed.

(** [prev_latlon] holds the initial pair or a pair of strings. *)
Lemma float_stored_raises (p : latlon) (e : exn) :
  p = prev_latlon initial_state \/ (exists c, p = as_latlon c) ->
  (float (fst p) = Raise e -> e = ValueError)
  /\ (float (snd p) = Raise e -> e = ValueError).
Proof.
  intros [->|[c ->]]; cbn.
  - split; discriminate.
  - split; apply float_of_string_raises.
Qed.

Lemma is_same_place_raises (c : string * string) (p : latlon) (e : exn) :
  p = prev_latlon initial_state \/ (exists c', p = as_latlon c') ->
  is_same_place (as_latlon c) p = Raise e -> e = ValueError.
Proof.
  intros Hp. destruct (float_stored_raises p e Hp) as [H1 H2].
  unfold is_same_place. cbn [as_latlon fst snd float].
  destruct (float_of_string (fst c)) as [a0|e0] eqn:E0; cbn;
    [|intros [= <-]; exact (float_of_string_raises _ _ E0)].
  destruct (float (fst p)) as [b0|e1]; cbn; [|intros [= <-]; now apply H1].
  destruct (float_of_string (snd c)) as [a1|e2] eqn:E2; cbn;
    [|intros [= <-]; exact (float_of_string_raises _ _ E2)].
  destruct (float (snd p)) as [b1|e3]; cbn; [discriminate|].
  intros [= <-]; now apply H2.
Qed.

Lemma visit_raises (user : string) (home anon : string * string)
    (st : seg_state) (date time : string) (c : string * string) (e : exn) :
  prev_latlon st = prev_latlon initial_state
  \/ (exists c', prev_latlon st = as_latlon c') ->
  visit user home anon st date time c = Raise e -> e = ValueError.
Proof.
  intros Hp. unfold visit.
  destruct (is_same_place (as_latlon c) (prev_latlon st)) as [same|e1] eqn:H1;
    cbn; [|intros [= <-]; exact (is_same_place_raises _ _ _ Hp H1)].
  assert (Hhome : forall e', is_same_place (as_latlon c) (as_latlon home) = Raise e'
                             -> e' = ValueError).
  { intros e'. apply is_same_place_raises. right. now exists home. }
  destruct same.
  - destruct (within_tsi (prev_date st) (prev_time st) date time)
      as [inside|e2] eqn:H2; cbn;
      [|intros [= <-]; exact (within_tsi_raises _ _ _ _ _ H2)].
    destruct (is_same_place (as_latlon c) (as_latlon home)) as [hit|e3] eqn:H3;
      cbn; [discriminate|]. intros [= <-]. now apply Hhome.
  - cbn. destruct (is_same_place (as_latlon c) (as_latlon home)) as [hit|e3] eqn:H3;
      cbn; [discriminate|]. intros [= <-]. now apply Hhome.
Qed.

Lemma scan_entry_raises (user : string) (home anon : string * string)
    (st : seg_state) (ent : string * measurement) (e : exn) :
  prev_latlon st = prev_latlon initial_state
  \/ (exists c', prev_latlon st = as_latlon c') ->
  scan_entry user home anon st ent = Raise e -> e = ValueError.
Proof.
  intros Hp. destruct ent as [key m]. destruct (is_valid m) eqn:Hv.
  - rewrite (scan_entry_valid _ _ _ _ _ _ Hv).
    destruct (reformat_key key) as [[date time]|e1] eqn:Hk; cbn;
      [|intros [= <-]; exact (reformat_key_raises _ _ Hk)].
    destruct (rounded_latlon (latitude m) (longitude m)) as [c|e2] eqn:Hc; cbn;
      [|intros [= <-]; exact (rounded_latlon_raises _ _ _ Hc)].
    now apply visit_raises.
  - unfold scan_entry. unfold is_valid in Hv. apply negb_false_iff in Hv.
    rewrite Hv. discriminate.
Qed.

Lemma scan_entry_stored (user : string) (home anon : string * string)
    (st st' : seg_state) (ent : string * measurement) (out : option row) :
  prev_latlon st = prev_latlon initial_state
  \/ (exists c', prev_latlon st = as_latlon c') ->
  scan_entry user home anon st ent = Ok (st', out) ->
  prev_latlon st' = prev_latlon initial_state
  \/ (exists c', prev_latlon st' = as_latlon c').
Proof.
  intros Hp H. destruct ent as [key m].
  apply scan_entry_Ok in H
    as [(_ & -> & _)|(_ & date & time & c & _ & _ & Hvis)]; [exact Hp|].
  apply visit_Ok in Hvis. destruct Hvis as (same & hit & _ & _ & -> & _).
  destruct same; [exact Hp | right; now exists c].
Qed.

Lemma scan_raises (user : string) (home anon : string * string)
    (entries : history) :
  forall st rows e,
    prev_latlon st = prev_latlon initial_state
    \/ (exists c', prev_latlon st = as_latlon c') ->
    scan user home anon st entries = (rows, Raise e) -> e = ValueError.
Proof.
  induction entries as [|ent rest IH]; intros st rows e Hp; cbn [scan];
    [discriminate|].
  destruct (scan_entry user home anon st ent) as [[st1 out]|e1] eqn:He.
  - destruct (scan user home anon st1 rest) as [rows' r'] eqn:Hs.
    intros [= _ ->]. eapply IH; [|exact Hs].
    exact (scan_entry_stored _ _ _ _ _ _ _ Hp He).
  - intros [= _ <-]. exact (scan_entry_raises _ _ _ _ _ _ Hp He).
Qed.

Lemma write_user_raises (data : dataset) (user : string) (draw_lat draw_lon : N)
    (rows : list row) (e : exn) :
  In user (map fst data) ->
  write_user data user draw_lat draw_lon = (rows, Raise e) ->
  e = ValueError \/ e = IndexError.
Proof.
  intros Hin. unfold write_user.
  destruct (find_home data user) as [home|e1] eqn:Hh.
  - destruct (lookup_present user data Hin) as (entries & -> & _).
    intros H. left. eapply scan_raises; [|exact H]. now left.
  - intros [= _ <-]. unfold find_home in Hh.
    destruct (lookup_present user data Hin) as (entries & Hl & _).
    rewrite Hl in Hh. cbn in Hh. rewrite find_home_loop_valid_coordinates in Hh.
    destruct (valid_coordinates entries) as [l|e2] eqn:Hv; cbn in Hh.
    + destruct (mode pair_eqb l); cbn in Hh; [discriminate|].
      destruct l; cbn in Hh; [|discriminate]. injection Hh as <-. now right.
    + injection Hh as <-. left. exact (valid_coordinates_raises _ _ Hv).
Qed.

Lemma write_users_raises (data : dataset) (rand : nat -> N) (users : list string) :
  forall i rows e,
    incl users (map fst data) ->
    write_users data users rand i = (rows, Raise e) ->
    e = ValueError \/ e = IndexError.
Proof.
  induction users as [|user rest IH]; intros i rows e Hincl; cbn [write_users];
    [discriminate|].
  destruct (write_user data user (rand i) (rand (S i))) as [rows1 [st|e1]] eqn:Hu.
  - destruct (write_users data rest rand (S (S i))) as [rows' r'] eqn:Hr.
    intros [= _ ->]. eapply IH; [|exact Hr].
    intros u Hu'. apply Hincl. now right.
  - intros [= _ <-]. eapply write_user_raises; [|exact Hu].
    apply Hincl. now left.
Qed.

Lemma scan_to_raises (sink : nat -> bool) (user : string)
    (home anon : string * string) (entries : history) :
  forall st k rows e,
    scan_to sink user home anon st entries k = (rows, Raise e) ->
    (e = OSError /\ exists j, sink j = false)
    \/ exists rows', scan user home anon st entries = (rows', Raise e).
Proof.
  induction entries as [|ent rest IH]; intros st k rows e;
    cbn [scan_to scan]; [discriminate|].
  destruct (scan_entry user home anon st ent) as [[st1 [w|]]|e1].
  - destruct (sink k) eqn:Hk.
    + destruct (scan_to sink user home anon st1 rest (S k)) as [rows1 r1] eqn:Hs.
      intros [= _ ->].
      destruct (IH _ _ _ _ Hs) as [H|[rows' H]]; [now left|]. right.
      rewrite H. now eexists.
    + intros [= _ <-]. left. split; [reflexivity | now exists k].
  - intros H. destruct (IH _ _ _ _ H) as [H'|[rows' H']]; [now left|]. right.
    rewrite H'. now eexists.
  - intros [= _ <-]. right. now eexists.
Qed.

Lemma write_user_to_raises (sink : nat -> bool) (data : dataset) (user : string)
    (draw_lat draw_lon : N) (k : nat) (rows : list row) (e : exn) :
  In user (map fst data) ->
  write_user_to sink data user draw_lat draw_lon k = (rows, Raise e) ->
  (e = OSError /\ exists j, sink j = false)
  \/ e = ValueError \/ e = IndexError.
Proof.
  intros Hin H.
  assert (Hu : (e = OSError /\ exists j, sink j = false)
               \/ exists rows', write_user data user draw_lat draw_lon
                                = (rows', Raise e)).
  { unfold write_user_to, write_user in *.
    destruct (find_home data user) as [home|e1].
    - destruct (lookup user data) as [entries|e2].
      + now apply scan_to_raises in H.
      + right. injection H as _ <-. now eexists.
    - right. injection H as _ <-. now eexists. }
  destruct Hu as [Hu|[rows' Hu]]; [now left|]. right.
  exact (write_user_raises data user draw_lat draw_lon rows' e Hin Hu).
Qed.

Lemma write_users_to_raises (sink : nat -> bool) (data : dataset)
    (rand : nat -> N) (users : list string) :
  forall i k rows e,
    incl users (map fst data) ->
    write_users_to sink data users rand i k = (rows, Raise e) ->
    (e = OSError /\ exists j, sink j = false)
    \/ e = ValueError \/ e = IndexError.
Proof.
  induction users as [|user rest IH]; intros i k rows e Hincl;
    cbn [write_users_to]; [discriminate|].
  destruct (write_user_to sink data user (rand i) (rand (S i)) k)
    as [rows1 [[st k']|e1]] eqn:Hu.
  - destruct (write_users_to sink data rest rand (S (S i)) k') as [rows' r'] eqn:Hr.
    intros [= _ ->]. eapply IH; [|exact Hr].
    intros u Hu'. apply Hincl. now right.
  - intros [= _ <-]. eapply write_user_to_raises; [|exact Hu].
    apply Hincl. now left.
Qed.

(** The only exceptions that stop [write_out] are the [OSError] of a file
    operation that fails ([open], a write or [close]), [ValueError] (a
    coordinate or a key that cannot be read, or the initial [prev_date]
    reaching [strptime]) and the [IndexError] of a user without a valid
    measurement; no [KeyError], [OverflowError] or [StatisticsError] gets
    out. *)
Theorem write_out_to_raises (sink : nat -> bool) (data : dataset)
    (rand : nat -> N) (lines : list string) (e : exn) :
  write_out_to sink data rand = (lines, Raise e) ->
  (e = OSError /\ exists j, sink j = false)
  \/ e = ValueError \/ e = IndexError.
Proof.
  unfold write_out_to.
  destruct (sink 0%nat) eqn:H0;
    [|intros [= _ <-]; left; split; [reflexivity | now exists 0%nat]].
  destruct (sink 1%nat) eqn:H1;
    [|intros [= _ <-]; left; split; [reflexivity | now exists 1%nat]].
  destruct (write_users_to sink data (map fst data) rand 0 2)
    as [rows [k|e1]] eqn:H.
  - destruct (sink k) eqn:Hk; [discriminate|].
    intros [= _ <-]. left. split; [reflexivity | now exists k].
  - intros [= _ <-]. eapply write_users_to_raises; [|exact H]. apply incl_refl.
Qed.

Lemma write_out_to_raises_witness :
  (OSError = OSError /\ exists j, (fun k => Nat.ltb k 3) j = false)
  \/ OSError = ValueError \/ OSError = IndexError.
Proof.
  apply (write_out_to_raises (fun k => Nat.ltb k 3) example_home (fun _ => 4%N)
           [header;
            line (written "u" "01/01/2023" "09:00:00" ("40.0004", "-75.0004") 0)]
           OSError).
  vm_compute. reflexivity.
Defined.

Lemma scan_to_open (sink : nat -> bool) (user : string)
    (home anon : string * string) (entries : history) :
  (forall j, sink j = true) ->
  forall st k,
    scan_to sink user home anon st entries k
    = (fst (scan user home anon st entries),
       match snd (scan user home anon st entries) with
       | Ok st' =>
           Ok (st', (k + List.length (fst (scan user home anon st entries)))%nat)
       | Raise e => Raise e
       end).
Proof.
  intros Hopen. induction entries as [|ent rest IH]; intros st k;
    cbn [scan_to scan].
  - cbn. now rewrite Nat.add_0_r.
  - destruct (scan_entry user home anon st ent) as [[st1 [w|]]|e1];
      [| |reflexivity].
    + rewrite Hopen, IH.
      destruct (scan user home anon st1 rest) as [rows [st'|e]]; cbn;
        [|reflexivity].
      do 2 f_equal. f_equal. lia.
    + rewrite IH. now destruct (scan user home anon st1 rest) as [rows r].
Qed.

Lemma write_users_to_open (sink : nat -> bool) (data : dataset)
    (rand : nat -> N) (users : list string) :
  (forall j, sink j = true) ->
  forall i k,
    write_users_to sink data users rand i k
    = (fst (write_users data users rand i),
       match snd (write_users data users rand i) with
       | Ok _ => Ok (k + List.length (fst (write_users data users rand i)))%nat
       | Raise e => Raise e
       end).
Proof.
  intros Hopen. induction users as [|user rest IH]; intros i k;
    cbn [write_users_to write_users].
  - cbn. now rewrite Nat.add_0_r.
  - unfold write_user_to, write_user.
    destruct (find_home data user) as [home|e]; [|reflexivity].
    destruct (lookup user data) as [entries|e]; [|reflexivity].
    rewrite (scan_to_open sink user home _ entries Hopen).
    destruct (scan user home _ initial_state entries) as [rows [st'|e]];
      cbn [fst snd]; [|reflexivity].
    rewrite IH.
    destruct (write_users data rest rand (S (S i))) as [rows' [[]|e]];
      cbn [fst snd]; [|reflexivity].
    rewrite length_app. do 2 f_equal. lia.
Qed.

(** Over a file every operation of which goes through, [write_out_to] is
    [write_out]. *)
Lemma write_out_to_open (sink : nat -> bool) (data : dataset) (rand : nat -> N) :
  (forall j, sink j = true) ->
  write_out_to sink data rand = write_out data rand.
Proof.
  intros Hopen. unfold write_out_to, write_out.
  rewrite !Hopen, (write_users_to_open sink data rand _ Hopen).
  destruct (write_users data (map fst data) rand 0) as [rows [[]|e]];
    cbn [fst snd]; [|reflexivity].
  now rewrite Hopen.
Qed.

(** ** When [write_out] ends normally *)

Lemma is_same_place_readable (p q : latlon) :
  readable_place p -> readable_place q -> exists r, is_same_place p q = Ok r.
Proof.
  intros (a0 & a1 & Ha0 & Ha1) (b0 & b1 & Hb0 & Hb1).
  eexists. apply is_same_place_Ok. exists a0, b0, a1, b1. now repeat split.
Qed.

Lemma timed_Ok (key : string) :
  timed key = true ->
  exists date time t, reformat_key key = Ok (date, time)
                      /\ instant date time = Ok t.
Proof.
  unfold timed. destruct (ping_instant key) as [t|] eqn:H; [|discriminate].
  intros _. apply ping_instant_Ok in H as (date & time & Hk & Hi).
  now exists date, time, t.
Qed.

Lemma clear_of_initial_Ok (m : measurement) :
  clear_of_initial m = true ->
  exists c, rounded_latlon (latitude m) (longitude m) = Ok c
            /\ is_same_place (as_latlon c) (prev_latlon initial_state) = Ok false.
Proof.
  unfold clear_of_initial.
  destruct (rounded_latlon (latitude m) (longitude m)) as [c|]; [|discriminate].
  destruct (is_same_place (as_latlon c) (prev_latlon initial_state))
    as [[]|] eqn:H; try discriminate.
  intros _. now exists c.
Qed.

(** From a state that holds a readable place and either a readable date and
    time or still the initial place, the scan of a scannable history ends
    normally with a row for every valid measurement. *)
Lemma scan_returns_from (user : string) (home anon : string * string)
    (entries : history) :
  readable_place (as_latlon home) ->
  scannable entries = true ->
  forall st,
    readable_place (prev_latlon st) ->
    (exists t, instant (prev_date st) (prev_time st) = Ok t)
    \/ prev_latlon st = prev_latlon initial_state ->
    exists rows st',
      scan user home anon st entries = (rows, Ok st')
      /\ List.length rows = List.length (valid_entries entries).
Proof.
  intros Hhome. unfold scannable, valid_entries.
  induction entries as [|[key m] rest IH]; intros Hs st Hp Ht;
    cbn [scan forallb filter fst snd] in *.
  - now exists [], st.
  - apply andb_prop in Hs as [Hent Hrest]. specialize (IH Hrest).
    destruct (is_valid m) eqn:Hv; cbn [negb orb] in Hent.
    + apply andb_prop in Hent as [Hkey Hm].
      destruct (timed_Ok key Hkey) as (date & time & t & Hk & Hi).
      destruct (clear_of_initial_Ok m Hm) as (c & Hc & Hclear).
      pose proof (rounded_latlon_readable _ _ _ Hc) as Hrc.
      destruct (is_same_place_readable _ _ Hrc Hhome) as [hit Hhit].
      destruct (is_same_place_readable _ _ Hrc Hp) as [same Hsame].
      rewrite (scan_entry_visit _ _ _ _ _ _ date time c Hv Hk Hc).
      destruct same.
      * destruct Ht as [[tp Htp]|Hinit]; [|congruence].
        rewrite (visit_same_location _ _ _ _ _ _ _ _ hit Hsame
                   (within_tsi_instants _ _ _ _ _ _ Htp Hi) Hhit).
        edestruct IH as (rows & st' & -> & Hlen);
          [exact Hp | left; exists t; exact Hi |].
        eexists _, _. split; [reflexivity|]. cbn. now rewrite Hlen.
      * rewrite (visit_new_location _ _ _ _ _ _ _ hit Hsame Hhit).
        edestruct IH as (rows & st' & -> & Hlen);
          [exact Hrc | left; exists t; exact Hi |].
        eexists _, _. split; [reflexivity|]. cbn. now rewrite Hlen.
    + unfold scan_entry. unfold is_valid in Hv. apply negb_false_iff in Hv.
      rewrite Hv. destruct (IH st Hp Ht) as (rows & st' & -> & Hlen).
      now exists rows, st'.
Qed.

Lemma scannable_decimal (entries : history) :
  scannable entries = true -> decimal_history entries.
Proof.
  unfold scannable, decimal_history. rewrite forallb_forall.
  intros H key m Hin Hv. specialize (H (key, m) Hin). cbn in H.
  rewrite Hv in H. cbn in H. apply andb_prop in H as [_ H].
  apply clear_of_initial_Ok in H as (c & Hc & _).
  unfold readable. now rewrite Hc.
Qed.

Lemma valid_entries_exists (entries : history) :
  valid_entries entries <> [] ->
  exists key m, In (key, m) entries /\ is_valid m = true.
Proof.
  unfold valid_entries. intros H.
  destruct (filter (fun e => is_valid (snd e)) entries) as [|[key m] r] eqn:E;
    [congruence|].
  assert (Hin : In (key, m) (filter (fun e => is_valid (snd e)) entries))
    by (rewrite E; now left).
  apply filter_In in Hin as [Hin Hv]. now exists key, m.
Qed.

Lemma write_user_scan_returns (data : dataset) (user : string)
    (entries : history) (draw_lat draw_lon : N) :
  lookup user data = Ok entries ->
  scannable entries = true ->
  valid_entries entries <> [] ->
  exists home rows st',
    find_home data user = Ok home
    /\ scan user home (anonymize (fst home) draw_lat, anonymize (snd home) draw_lon)
         initial_state entries = (rows, Ok st')
    /\ List.length rows = List.length (valid_entries entries).
Proof.
  intros Hl Hs Hne.
  destruct (valid_coordinates_returns entries (scannable_decimal entries Hs))
    as [latlons Hv].
  pose proof (valid_coordinates_nonempty entries latlons Hv
                (valid_entries_exists entries Hne)) as Hnil.
  assert (Hhome : exists home, find_home data user = Ok home /\ In home latlons).
  { rewrite (find_home_unfold data user entries latlons Hl Hv).
    destruct (mode pair_eqb latlons) as [h|e] eqn:Hm.
    - exists h. split; [reflexivity|].
      apply (mode_In pair_eqb pair_eqb_eq pair_dec). exact Hm.
    - destruct latlons as [|h r]; [congruence|].
      exists h. split; [reflexivity | now left]. }
  destruct Hhome as (home & Hh & Hin).
  pose proof (valid_coordinates_fmt4 entries latlons Hv) as Hall.
  rewrite Forall_forall in Hall. destruct (Hall home Hin) as (x & y & ->).
  destruct (scan_returns_from user (fmt4 x, fmt4 y)
              (anonymize (fmt4 x) draw_lat, anonymize (fmt4 y) draw_lon) entries)
    with (st := initial_state) as (rows & st' & Hscan & Hlen); auto.
  - cbn. destruct (float_of_string_fmt4 x) as [x' Hx].
    destruct (float_of_string_fmt4 y) as [y' Hy]. exists x', y'. now split.
  - eexists _, _. split; reflexivity.
  - now exists (fmt4 x, fmt4 y), rows, st'.
Qed.

(** A user with at least one valid measurement, whose valid measurements
    have coordinates [float] reads, keys [strptime] reads once reformatted,
    and places that are not the same place as the initial [(-1, -1)]: the
    user's turn in [write_out] ends normally, with one row for each valid
    measurement. *)
Theorem write_user_returns (data : dataset) (user : string)
    (entries : history) (draw_lat draw_lon : N) :
  lookup user data = Ok entries ->
  scannable entries = true ->
  valid_entries entries <> [] ->
  exists rows st',
    write_user data user draw_lat draw_lon = (rows, Ok st')
    /\ List.length rows = List.length (valid_entries entries).
Proof.
  intros Hl Hs Hne.
  destruct (write_user_scan_returns data user entries draw_lat draw_lon Hl Hs Hne)
    as (home & rows & st' & Hh & Hscan & Hlen).
  exists rows, st'. split; [|exact Hlen].
  now rewrite (write_user_scan data user _ _ home entries Hh Hl).
Qed.

Lemma write_user_returns_witness :
  exists rows st',
    write_user example_home "u" 3 8 = (rows, Ok st')
    /\ List.length rows
       = List.length
           (valid_entries
              [("2023-01-01 09:00:00", {| latitude := "40.00001"; longitude := "-75.0" |});
               ("2023-01-01 09:05:00", {| latitude := "40.0"; longitude := "-75.0" |});
               ("2023-01-01 09:07:00", {| latitude := "40.0"; longitude := EmptyString |});
               ("2023-01-01 09:20:00", {| latitude := "40.0001"; longitude := "-75.0" |});
               ("2023-01-01 09:25:00", {| latitude := "41.0"; longitude := "-74.0" |})]).
Proof.
  apply (write_user_returns example_home "u").
  - reflexivity.
  - vm_compute. reflexivity.
  - vm_compute. discriminate.
Defined.

Lemma write_users_returns (data : dataset) (rand : nat -> N) (users : list string) :
  (forall user, In user users ->
     exists entries, lookup user data = Ok entries
                     /\ scannable entries = true /\ valid_entries entries <> []) ->
  forall i,
    exists rows,
      write_users data users rand i = (rows, Ok tt)
      /\ List.length rows
         = List.length
             (flat_map (fun user => match lookup user data with
                                    | Ok entries => valid_entries entries
                                    | Raise _ => []
                                    end) users).
Proof.
  induction users as [|user rest IH]; intros Hall i; cbn [write_users flat_map].
  - now exists [].
  - destruct (Hall user (or_introl eq_refl)) as (entries & Hl & Hs & Hne).
    destruct (write_user_scan_returns data user entries (rand i) (rand (S i))
                Hl Hs Hne) as (home & rows & st' & Hh & Hscan & Hlen).
    rewrite (write_user_scan data user _ _ home entries Hh Hl), Hscan.
    destruct (IH (fun u Hu => Hall u (or_intror Hu)) (S (S i)))
      as (rows' & -> & Hlen').
    exists (rows ++ rows'). split; [reflexivity|].
    now rewrite Hl, !length_app, Hlen, Hlen'.
Qed.

(** When every user has at least one valid measurement and every valid
    measurement has readable coordinates away from the initial [(-1, -1)]
    under a readable key, [write_out] ends normally, and the file holds the
    header and one line for each valid measurement. *)
Theorem write_out_returns (data : dataset) (rand : nat -> N) :
  (forall user entries, In (user, entries) data ->
     scannable entries = true /\ valid_entries entries <> []) ->
  exists lines,
    write_out data rand = (header :: lines, Ok tt)
    /\ List.length lines = List.length (all_valid_entries data).
Proof.
  intros Hall. unfold write_out, all_valid_entries.
  destruct (write_users_returns data rand (map fst data)) with (i := 0%nat)
    as (rows & -> & Hlen).
  { intros user Hin. destruct (lookup_present user data Hin) as (entries & Hl & Hin').
    exists entries. split; [exact Hl|]. now apply (Hall user). }
  exists (map line rows). split; [reflexivity|]. now rewrite length_map.
Qed.

Lemma write_out_returns_witness :
  exists lines,
    write_out example_home (fun _ => 4%N) = (header :: lines, Ok tt)
    /\ List.length lines = List.length (all_valid_entries example_home).
Proof.
  apply (write_out_returns example_home (fun _ => 4%N)).
  intros user entries [[= <- <-]|[]]. split; [vm_compute; reflexivity|].
  vm_compute. discriminate.
Defined.

(** [write_out] takes the users in turn: when the turns of the first users
    end normally the later ones follow, with the generator two draws
    further for each user done, and their rows come after; when one raises,
    the rows so far stay and no later user is looked at. *)
Theorem write_users_app (data : dataset) (rand : nat -> N)
    (first later : list string) (i : nat) :
  write_users data (first ++ later) rand i
  = match write_users data first rand i with
    | (rows, Ok _) =>
        let '(rows', r) :=
          write_users data later rand (i + 2 * List.length first) in
        (rows ++ rows', r)
    | (rows, Raise e) => (rows, Raise e)
    end.
Proof.
  revert i. induction first as [|user rest IH]; intros i;
    cbn [app write_users List.length].
  - rewrite Nat.mul_0_r, Nat.add_0_r.
    now destruct (write_users data later rand i).
  - destruct (write_user data user (rand i) (rand (S i))) as [rows1 [st|e]];
      [|reflexivity].
    rewrite IH.
    destruct (write_users data rest rand (S (S i))) as [rows2 [[]|e]];
      [|reflexivity].
    replace (i + 2 * S (List.length rest))%nat
      with (S (S i) + 2 * List.length rest)%nat by lia.
    destruct (write_users data later rand (S (S i) + 2 * List.length rest))
      as [rows3 r].
    now rewrite app_assoc.
Qed.

(** ** Keys *)

Lemma split_once_free (sep : ascii) (a b : string) :
  free_of sep a = true ->
  Str.split_once sep (a ++ String sep b)%string = Some (a, b).
Proof.
  induction a as [|c a IH]; cbn.
  - now rewrite Ascii.eqb_refl.
  - intros H. apply andb_prop in H as [Hc Ha]. apply negb_true_iff in Hc.
    now rewrite Hc, (IH Ha).
Qed.

Lemma split_once_none (sep : ascii) (s : string) :
  free_of sep s = true -> Str.split_once sep s = None.
Proof.
  induction s as [|c s IH]; cbn; [reflexivity|].
  intros H. apply andb_prop in H as [Hc Hs]. apply negb_true_iff in Hc.
  now rewrite Hc, (IH Hs).
Qed.

Lemma split_free (sep : ascii) (a : string) :
  free_of sep a = true -> Str.split sep a = [a].
Proof.
  induction a as [|c a IH]; cbn; [reflexivity|].
  intros H. apply andb_prop in H as [Hc Ha]. apply negb_true_iff in Hc.
  now rewrite Hc, (IH Ha).
Qed.

Lemma split_free_app (sep : ascii) (a b : string) :
  free_of sep a = true ->
  Str.split sep (a ++ String sep b)%string = a :: Str.split sep b.
Proof.
  induction a as [|c a IH]; cbn.
  - now rewrite Ascii.eqb_refl.
  - intros H. apply andb_prop in H as [Hc Ha]. apply negb_true_iff in Hc.
    now rewrite Hc, (IH Ha).
Qed.

Lemma free_of_app (sep : ascii) (a b : string) :
  free_of sep (a ++ b)%string = free_of sep a && free_of sep b.
Proof.
  induction a as [|c a IH]; cbn; [reflexivity|]. now rewrite IH, andb_assoc.
Qed.

(** A key made of a year, a month and a day joined by hyphens, a blank and
    a time (none of the three fields holding a hyphen or a blank) is read
    as the date month/day/year and the time, whatever the time holds; the
    same date without a blank after it, or with only two fields before the
    blank, raises [ValueError]. *)
Theorem reformat_key_fields (y mo d time : string) :
  free_of "-" y = true -> free_of "-" mo = true -> free_of "-" d = true ->
  free_of " " y = true -> free_of " " mo = true -> free_of " " d = true ->
  reformat_key (y ++ "-" ++ mo ++ "-" ++ d ++ " " ++ time)%string
  = Ok ((mo ++ "/" ++ d ++ "/" ++ y)%string, time)
  /\ reformat_key (y ++ "-" ++ mo ++ "-" ++ d)%string = Raise ValueError
  /\ reformat_key (y ++ "-" ++ mo ++ " " ++ time)%string = Raise ValueError.
Proof.
  intros Hy Hmo Hd By Bmo Bd.
  assert (Hdate : Str.split "-" (y ++ "-" ++ mo ++ "-" ++ d)%string = [y; mo; d]).
  { change (y ++ "-" ++ mo ++ "-" ++ d)%string
      with (y ++ String "-" (mo ++ String "-" d))%string.
    now rewrite (split_free_app _ _ _ Hy), (split_free_app _ _ _ Hmo),
      (split_free _ _ Hd). }
  assert (Bdate : free_of " " (y ++ "-" ++ mo ++ "-" ++ d)%string = true).
  { change (y ++ "-" ++ mo ++ "-" ++ d)%string
      with (y ++ String "-" (mo ++ String "-" d))%string.
    rewrite free_of_app. cbn [free_of]. rewrite free_of_app. cbn [free_of].
    now rewrite By, Bmo, Bd. }
  split; [|split].
  - replace (y ++ "-" ++ mo ++ "-" ++ d ++ " " ++ time)%string
      with ((y ++ "-" ++ mo ++ "-" ++ d) ++ String " " time)%string
      by (now rewrite !string_app_assoc).
    unfold reformat_key, split_entry.
    rewrite (split_once_free _ _ _ Bdate). cbn [bind].
    unfold split_date. rewrite Hdate. reflexivity.
  - unfold reformat_key, split_entry.
    now rewrite (split_once_none _ _ Bdate).
  - assert (B2 : free_of " " (y ++ "-" ++ mo)%string = true).
    { change (y ++ "-" ++ mo)%string with (y ++ String "-" mo)%string.
      rewrite free_of_app. cbn [free_of]. now rewrite By, Bmo. }
    replace (y ++ "-" ++ mo ++ " " ++ time)%string
      with ((y ++ "-" ++ mo) ++ String " " time)%string
      by (now rewrite !string_app_assoc).
    unfold reformat_key, split_entry.
    rewrite (split_once_free _ _ _ B2). cbn [bind].
    unfold split_date.
    change (y ++ "-" ++ mo)%string with (y ++ String "-" mo)%string.
    now rewrite (split_free_app _ _ _ Hy), (split_free _ _ Hmo).
Qed.

Lemma reformat_key_fields_witness :
  reformat_key ("2023" ++ "-" ++ "01" ++ "-" ++ "31" ++ " " ++ "09:05:00")%string
  = Ok (("01" ++ "/" ++ "31" ++ "/" ++ "2023")%string, "09:05:00")
  /\ reformat_key ("2023" ++ "-" ++ "01" ++ "-" ++ "31")%string = Raise ValueError
  /\ reformat_key ("2023" ++ "-" ++ "01" ++ " " ++ "09:05:00")%string
     = Raise ValueError.
Proof. apply (reformat_key_fields "2023" "01" "31" "09:05:00"); reflexivity. Defined.

(** ** The sampling window in both orders *)

(** For two timestamps [strptime] reads, [within_tsi] holds in at least
    one of the two orders of its arguments, and in both exactly when the
    two are at most [2 * TSI] minutes apart. *)
Theorem within_tsi_orders (d1 t1 d2 t2 : string) (s1 s2 : Z) :
  instant d1 t1 = Ok s1 ->
  instant d2 t2 = Ok s2 ->
  (within_tsi d1 t1 d2 t2 = Ok true \/ within_tsi d2 t2 d1 t1 = Ok true)
  /\ (within_tsi d1 t1 d2 t2 = Ok true /\ within_tsi d2 t2 d1 t1 = Ok true
      <-> Z.abs (s2 - s1) <= 2 * TSI * 60).
Proof.
  intros H1 H2.
  rewrite (within_tsi_instants _ _ _ _ _ _ H1 H2),
          (within_tsi_instants _ _ _ _ _ _ H2 H1).
  unfold TSI.
  destruct (Z.leb_spec (s2 - s1) (5 * 60 * 2)),
           (Z.leb_spec (s1 - s2) (5 * 60 * 2)); split;
    try (left; reflexivity); try (right; reflexivity); try lia;
    split; try lia; try (intros [? ?]; discriminate); auto.
Qed.

Lemma within_tsi_orders_witness :
  (within_tsi "01/01/2023" "09:00:00" "01/01/2023" "09:20:00" = Ok true
   \/ within_tsi "01/01/2023" "09:20:00" "01/01/2023" "09:00:00" = Ok true)
  /\ (within_tsi "01/01/2023" "09:00:00" "01/01/2023" "09:20:00" = Ok true
      /\ within_tsi "01/01/2023" "09:20:00" "01/01/2023" "09:00:00" = Ok true
      <-> Z.abs (63808161600 - 63808160400) <= 2 * TSI * 60).
Proof.
  apply (within_tsi_orders "01/01/2023" "09:00:00" "01/01/2023" "09:20:00");
    vm_compute; reflexivity.
Defined.

(** ** The first row of a user *)

(** The first row written for a user has [time_at_loc] 0: from the initial
    state a measurement is either at a new location, or, being the same
    place as the initial [(-1, -1)], stops the scan in [within_tsi] before
    it is written. *)
Theorem first_row_starts_at_zero (user : string) (home anon : string * string)
    (entries : history) (r : row) (rows : list row) :
  fst (scan user home anon initial_state entries) = r :: rows ->
  row_time_at_loc r = 0.
Proof.
  induction entries as [|[key m] rest IH]; cbn [scan]; [discriminate|].
  destruct (scan_entry user home anon initial_state (key, m)) as [[st1 out]|e] eqn:He;
    [|discriminate].
  destruct (scan user home anon st1 rest) as [rows' r'] eqn:Hs.
  apply scan_entry_Ok in He
    as [(Hv & -> & ->)|(Hv & date & time & c & Hk & Hc & Hvis)].
  - rewrite Hs in IH. exact IH.
  - cbn [fst]. unfold visit in Hvis. inv_bind Hvis. rename a into same.
    destruct same.
    + inv_bind Hvis. inv_bind Ha0.
      unfold within_tsi in Ha1. cbn in Ha1. discriminate.
    + cbn in Hvis. inv_bind Hvis. injection Hvis as <- <-.
      intros [= <- _]. reflexivity.
Qed.

Lemma first_row_starts_at_zero_witness :
  row_time_at_loc
    (written "u" "01/01/2023" "09:05:00" ("40.0001", "-75.0000") 0) = 0.
Proof.
  apply (first_row_starts_at_zero "u" ("41.0000", "-74.0000")
           ("41.0003", "-74.0008") example_run _
           [written "u" "01/01/2023" "09:10:00" ("40.0001", "-75.0000") 5]).
  vm_compute. reflexivity.
Defined.

(** ** How far the anonymised home is from the home *)

Lemma ten_thousandths_minus (r : string) :
  ten_thousandths (String "-" r)
  = option_map (fun v => - Z.of_N v) (unsigned_ten_thousandths r).
Proof.
  unfold ten_thousandths, unsigned_ten_thousandths.
  destruct (Str.split_once "." r) as [[ip fp]|]; [|reflexivity].
  now destruct (_ && _).
Qed.

Lemma ten_thousandths_plain (c : ascii) (r : string) :
  c <> "-"%char ->
  ten_thousandths (String c r)
  = option_map Z.of_N (unsigned_ten_thousandths (String c r)).
Proof.
  intros Hc. unfold ten_thousandths, unsigned_ten_thousandths.
  destruct c as [[] [] [] [] [] [] [] []]; try congruence;
    match goal with
    | |- context [Str.split_once ?a ?b] =>
        destruct (Str.split_once a b) as [[ip fp]|]; [|reflexivity]
    end;
    now destruct (_ && _).
Qed.

Lemma split_once_Some (sep : ascii) (s a b : string) :
  Str.split_once sep s = Some (a, b) ->
  s = (a ++ String sep b)%string /\ free_of sep a = true.
Proof.
  revert a. induction s as [|c s IH]; intros a; cbn; [discriminate|].
  destruct (Ascii.eqb_spec c sep) as [->|Hne].
  - intros [= <- <-]. now split.
  - destruct (Str.split_once sep s) as [[a' b']|]; [|discriminate].
    intros [= <- <-]. destruct (IH a' eq_refl) as [-> Hf]. split; [reflexivity|].
    cbn. rewrite Hf. now destruct (Ascii.eqb_spec c sep).
Qed.

Lemma digits_value_app (a b : string) (acc : N) :
  Str.digits_value acc (a ++ b)%string
  = Str.digits_value (Str.digits_value acc a) b.
Proof. revert acc. induction a as [|c a IH]; intros acc; cbn; auto. Qed.

Lemma is_digit_value (c : ascii) :
  Str.is_digit c = true -> (N_of_ascii c - 48 <= 9)%N.
Proof.
  unfold Str.is_digit. intros H. apply andb_prop in H as [_ H].
  apply N.leb_le in H. lia.
Qed.

Lemma digit_char_value (d : N) :
  (N_of_ascii (Str.digit_char d) - 48 = d mod 10)%N.
Proof.
  unfold Str.digit_char.
  assert (H : (d mod 10 < 10)%N) by now apply N.mod_upper_bound.
  generalize dependent (d mod 10)%N. intros k H.
  rewrite N_ascii_embedding by lia. lia.
Qed.

Lemma drop_last_cons (c : ascii) (r : string) :
  r <> EmptyString -> Str.drop_last (String c r) = String c (Str.drop_last r).
Proof. destruct r; [congruence | reflexivity]. Qed.

(** Replacing the last character of an unsigned four-decimal text by a
    digit changes its last decimal only. *)
Lemma unsigned_anonymized (body : string) (v : N) (d : N) :
  unsigned_ten_thousandths body = Some v ->
  exists u a,
    (a <= 9)%N /\ v = (10 * u + a)%N
    /\ body <> EmptyString
    /\ unsigned_ten_thousandths
         (Str.drop_last body ++ String (Str.digit_char d) EmptyString)%string
       = Some (10 * u + d mod 10)%N.
Proof.
  unfold unsigned_ten_thousandths at 1.
  destruct (Str.split_once "." body) as [[ip fp]|] eqn:Hs; [|discriminate].
  destruct (_ && _) eqn:Hc; [|discriminate]. intros [= <-].
  apply andb_prop in Hc as [Hc Hlen]. apply andb_prop in Hc as [Hdig Hip].
  apply split_once_Some in Hs as [-> Hfree].
  destruct fp as [|f1 [|f2 [|f3 [|f4 [|f5 fp]]]]]; try discriminate Hlen.
  rewrite all_digits_app in Hdig. apply andb_prop in Hdig as [Hd1 Hd2].
  cbn in Hd2. rewrite andb_true_r in Hd2.
  apply andb_prop in Hd2 as [H1 Hd2]. apply andb_prop in Hd2 as [H2 Hd2].
  apply andb_prop in Hd2 as [H3 H4].
  set (front := (ip ++ String "." (String f1 (String f2 (String f3 EmptyString))))%string).
  assert (Hbody :
            (ip ++ String "." (String f1 (String f2 (String f3
                                 (String f4 EmptyString)))))%string
            = (front ++ String f4 EmptyString)%string).
  { subst front. now rewrite string_app_assoc. }
  set (u := Str.digits_value 0
              (ip ++ String f1 (String f2 (String f3 EmptyString)))%string).
  exists u, (N_of_ascii f4 - 48)%N.
  split; [now apply is_digit_value|].
  split; [subst u; rewrite !digits_value_app; cbn; lia|].
  split; [destruct ip; discriminate|].
  rewrite Hbody, drop_last_snoc. subst front. rewrite string_app_assoc.
  cbn [append]. unfold unsigned_ten_thousandths.
  rewrite (split_once_free _ _ _ Hfree).
  rewrite all_digits_app. cbn [Str.all_digits].
  rewrite Hd1, H1, H2, H3, is_digit_digit_char, Hip. cbn.
  f_equal. subst u. rewrite !digits_value_app. cbn.
  rewrite digit_char_value. lia.
Qed.

Lemma quot_last_decimal (u a : N) :
  (a <= 9)%N ->
  Z.quot (Z.of_N (10 * u + a)) 10 = Z.of_N u
  /\ Z.quot (- Z.of_N (10 * u + a)) 10 = - Z.of_N u.
Proof.
  intros Ha.
  assert (H : Z.quot (Z.of_N (10 * u + a)) 10 = Z.of_N u).
  { rewrite Z.quot_div_nonneg by lia. symmetry.
    apply (Z.div_unique_pos _ _ _ (Z.of_N a)); lia. }
  split; [exact H|]. now rewrite Z.quot_opp_l, H by lia.
Qed.

(** Replacing the last character of a four-decimal text by a drawn digit
    gives a four-decimal text at most 9 ten-thousandths away, with the
    same digits before the last. *)
Lemma anonymize_near (home : string) (v : Z) (draw : N) :
  ten_thousandths home = Some v ->
  exists v',
    ten_thousandths (anonymize home draw) = Some v'
    /\ Z.abs (v' - v) <= 9 /\ Z.quot v' 10 = Z.quot v 10.
Proof.
  rewrite anonymize_digit. destruct home as [|c r]; [discriminate|].
  destruct (ascii_dec c "-") as [->|Hc].
  - rewrite ten_thousandths_minus.
    destruct (unsigned_ten_thousandths r) as [w|] eqn:Hw; [|discriminate].
    intros [= <-].
    destruct (unsigned_anonymized r w draw Hw) as (u & a & Ha & -> & Hr & Hw').
    rewrite (drop_last_cons _ _ Hr). cbn [append].
    rewrite ten_thousandths_minus, Hw'. cbn [option_map].
    assert (Hd : (draw mod 10 < 10)%N) by now apply N.mod_upper_bound.
    set (k := (draw mod 10)%N) in *. clearbody k.
    eexists. split; [reflexivity|]. split; [lia|].
    destruct (quot_last_decimal u a Ha) as [_ ->].
    now destruct (quot_last_decimal u k) as [_ ->]; [lia|].
  - rewrite (ten_thousandths_plain c r Hc).
    destruct (unsigned_ten_thousandths (String c r)) as [w|] eqn:Hw; [|discriminate].
    intros [= <-].
    destruct (unsigned_anonymized _ w draw Hw) as (u & a & Ha & -> & _ & Hw').
    assert (Hr : r <> EmptyString).
    { intros ->. unfold unsigned_ten_thousandths in Hw. cbn in Hw.
      destruct (Ascii.eqb c "."); [|discriminate]. cbn in Hw.
      discriminate. }
    rewrite (drop_last_cons _ _ Hr) in Hw' |- *. cbn [append] in Hw' |- *.
    rewrite (ten_thousandths_plain c _ Hc), Hw'. cbn [option_map].
    assert (Hd : (draw mod 10 < 10)%N) by now apply N.mod_upper_bound.
    set (k := (draw mod 10)%N) in *. clearbody k.
    eexists. split; [reflexivity|]. split; [lia|].
    destruct (quot_last_decimal u a Ha) as [-> _].
    now destruct (quot_last_decimal u k) as [-> _]; [lia|].
Qed.

Lemma digits_value_uint_acc (d : Decimal.uint) :
  forall acc : positive,
    Str.digits_value (Npos acc) (NilEmpty.string_of_uint d)
    = Npos (Pos.of_uint_acc d acc).
Proof.
  induction d; intros acc;
    cbn [NilEmpty.string_of_uint Str.digits_value Pos.of_uint_acc];
    try reflexivity; rewrite <- IHd; f_equal;
    match goal with
    | |- context [N_of_ascii ?c] =>
        let v := eval vm_compute in (N_of_ascii c - 48)%N in
        change (N_of_ascii c - 48)%N with v
    end; lia.
Qed.

Lemma digits_value_uint (d : Decimal.uint) :
  Str.digits_value 0 (NilEmpty.string_of_uint d) = Pos.of_uint d.
Proof.
  induction d; cbn [NilEmpty.string_of_uint Str.digits_value Pos.of_uint];
    try reflexivity;
    match goal with
    | |- context [N_of_ascii ?c] =>
        let v := eval vm_compute in (10 * 0 + (N_of_ascii c - 48))%N in
        change (10 * 0 + (N_of_ascii c - 48))%N with v
    end; [exact IHd | apply digits_value_uint_acc ..].
Qed.

(** [str(n)] read back digit by digit is [n]. *)
Lemma digits_value_of_N (n : N) : Str.digits_value 0 (Str.of_N n) = n.
Proof.
  unfold Str.of_N, NilZero.string_of_uint.
  pose proof (DecimalN.Unsigned.of_to n) as H. unfold N.of_uint in H.
  destruct (N.to_uint n) eqn:E;
    try (rewrite digits_value_uint; exact H).
  cbn in H. subst n. reflexivity.
Qed.

Lemma four_decimals (n : N) :
  (10 * (10 * (10 * (10 * (n / 10000) + (n / 1000) mod 10)
               + (n / 100) mod 10) + (n / 10) mod 10) + n mod 10)%N = n.
Proof. zify. Z.to_euclidean_division_equations. lia. Qed.

(** A four-decimal text denotes the count of ten-thousandths it was
    printed from. *)
Lemma ten_thousandths_fixed4 (neg : bool) (n : N) :
  ten_thousandths (fixed4 neg n)
  = Some (if neg then - Z.of_N n else Z.of_N n).
Proof.
  assert (Hu : forall c r,
             Str.of_N (n / 10000) = String c r ->
             Str.is_digit c = true -> Str.all_digits r = true ->
             unsigned_ten_thousandths
               (String c r ++ String "."
                  (String (Str.digit_char (n / 1000))
                     (String (Str.digit_char (n / 100))
                        (String (Str.digit_char (n / 10))
                           (String (Str.digit_char n) EmptyString)))))%string
             = Some n).
  { intros c r E Hc Hr. unfold unsigned_ten_thousandths.
    rewrite split_once_point by (cbn; now rewrite Hc, Hr).
    rewrite all_digits_app. cbn [Str.all_digits].
    rewrite Hc, Hr, !is_digit_digit_char. cbn [andb negb String.eqb].
    cbn [String.length Nat.eqb]. f_equal.
    rewrite digits_value_app, <- E, digits_value_of_N.
    cbn [Str.digits_value]. rewrite !digit_char_value.
    rewrite <- (four_decimals n) at 6. reflexivity. }
  unfold fixed4. destruct (of_N_digits (n / 10000)) as (c & r & E & Hc & Hr).
  rewrite E. destruct neg.
  - change (("-" ++ String c r ++ "." ++ ?f)%string)
      with (String "-" (String c r ++ String "." f)%string).
    rewrite ten_thousandths_minus, (Hu c r E Hc Hr). reflexivity.
  - change ((EmptyString ++ String c r ++ "." ++ ?f)%string)
      with (String c (r ++ String "." f)%string).
    rewrite ten_thousandths_plain
      by (intros ->; discriminate Hc).
    change (String c (r ++ String "." ?f)%string)
      with (String c r ++ String "." f)%string.
    rewrite (Hu c r E Hc Hr). reflexivity.
Qed.

(** The anonymised home of a user whose home reads as finite floats: each
    of its two strings is a four-decimal text at most 9 ten-thousandths of
    a degree from the home's, with the same digits up to the third
    decimal, whatever the draws. *)
Theorem anonymized_home_near (data : dataset) (user : string)
    (entries : history) (home : string * string) (draw_lat draw_lon : N) :
  lookup user data = Ok entries ->
  find_home data user = Ok home ->
  finite_coord home = true ->
  exists v w v' w',
    ten_thousandths (fst home) = Some v
    /\ ten_thousandths (snd home) = Some w
    /\ ten_thousandths (anonymize (fst home) draw_lat) = Some v'
    /\ ten_thousandths (anonymize (snd home) draw_lon) = Some w'
    /\ Z.abs (v' - v) <= 9 /\ Z.abs (w' - w) <= 9
    /\ Z.quot v' 10 = Z.quot v 10 /\ Z.quot w' 10 = Z.quot w 10.
Proof.
  intros Hl Hh Hf.
  destruct (find_home_In data user entries home Hl Hh) as (latlons & Hv & Hin).
  pose proof (valid_coordinates_fmt4 entries latlons Hv) as Hall.
  rewrite Forall_forall in Hall. destruct (Hall home Hin) as (x & y & ->).
  destruct (fmt4_finite x y Hf) as (s & n & s' & n' & Ex & Ey).
  cbn [fst snd]. rewrite Ex, Ey.
  destruct (anonymize_near (fixed4 s n) _ draw_lat (ten_thousandths_fixed4 s n))
    as (v' & Hv' & Hd & Hq).
  destruct (anonymize_near (fixed4 s' n') _ draw_lon (ten_thousandths_fixed4 s' n'))
    as (w' & Hw' & Hd' & Hq').
  eexists _, _, v', w'.
  split; [apply ten_thousandths_fixed4|].
  split; [apply ten_thousandths_fixed4|].
  repeat split; assumption.
Qed.

Lemma anonymized_home_near_witness :
  exists v w v' w',
    ten_thousandths "40.0000" = Some v
    /\ ten_thousandths "-75.0000" = Some w
    /\ ten_thousandths (anonymize "40.0000" 3) = Some v'
    /\ ten_thousandths (anonymize "-75.0000" 8) = Some w'
    /\ Z.abs (v' - v) <= 9 /\ Z.abs (w' - w) <= 9
    /\ Z.quot v' 10 = Z.quot v 10 /\ Z.quot w' 10 = Z.quot w 10.
Proof.
  apply (anonymized_home_near example_home "u"
           [("2023-01-01 09:00:00", {| latitude := "40.00001"; longitude := "-75.0" |});
            ("2023-01-01 09:05:00", {| latitude := "40.0"; longitude := "-75.0" |});
            ("2023-01-01 09:07:00", {| latitude := "40.0"; longitude := EmptyString |});
            ("2023-01-01 09:20:00", {| latitude := "40.0001"; longitude := "-75.0" |});
            ("2023-01-01 09:25:00", {| latitude := "41.0"; longitude := "-74.0" |})]
           ("40.0000", "-75.0000") 3 8).
  - reflexivity.
  - vm_compute. reflexivity.
  - vm_compute. reflexivity.
Defined.

(** ** The written lines *)

Lemma all_digits_free_of (sep : ascii) (s : string) :
  Str.is_digit sep = false -> Str.all_digits s = true -> free_of sep s = true.
Proof.
  intros Hsep. induction s as [|c s IH]; cbn; [reflexivity|].
  intros H. apply andb_prop in H as [Hc Hs]. rewrite (IH Hs), andb_true_r.
  apply negb_true_iff. destruct (Ascii.eqb_spec c sep) as [->|]; congruence.
Qed.

Lemma of_Z_free_of_tab (z : Z) : free_of (ascii_of_nat 9) (Str.of_Z z) = true.
Proof.
  unfold Str.of_Z, NilZero.string_of_int.
  assert (H : forall d, free_of (ascii_of_nat 9) (NilZero.string_of_uint d) = true).
  { intros d. unfold NilZero.string_of_uint.
    destruct d; try reflexivity;
      apply all_digits_free_of; try reflexivity;
      apply (all_digits_string_of_uint (_ _)). }
  destruct (Z.to_int z); [apply H|]. cbn. apply H.
Qed.

(** A written line splits at its tabs into the six fields it was made
    from, when none of the five text fields holds a tab: a user name, a key
    or a coordinate with a tab in it would shift the columns. *)
Theorem line_fields (r : row) :
  free_of (ascii_of_nat 9) (row_user r) = true ->
  free_of (ascii_of_nat 9) (row_date r) = true ->
  free_of (ascii_of_nat 9) (row_time r) = true ->
  free_of (ascii_of_nat 9) (row_lat r) = true ->
  free_of (ascii_of_nat 9) (row_lon r) = true ->
  Str.split (ascii_of_nat 9) (Str.drop_last (line r))
  = [row_user r; row_date r; row_time r; row_lat r; row_lon r;
     Str.of_Z (row_time_at_loc r)].
Proof.
  intros H1 H2 H3 H4 H5. unfold line, newline. rewrite drop_last_snoc.
  unfold tab. cbn [Str.join append].
  now rewrite (split_free_app _ _ _ H1), (split_free_app _ _ _ H2),
    (split_free_app _ _ _ H3), (split_free_app _ _ _ H4),
    (split_free_app _ _ _ H5), (split_free _ _ (of_Z_free_of_tab _)).
Qed.

Lemma line_fields_witness :
  let r := written "u" "01/01/2023" "09:05:00" ("40.0003", "-75.0008") 5 in
  Str.split (ascii_of_nat 9) (Str.drop_last (line r))
  = [row_user r; row_date r; row_time r; row_lat r; row_lon r;
     Str.of_Z (row_time_at_loc r)].
Proof.
  intros r. apply (line_fields r); reflexivity.
Defined.

(** ** Two runs over the same data *)

Lemma write_user_draw_independent (data : dataset) (user : string)
    (a b a' b' : N) :
  snd (write_user data user a b) = snd (write_user data user a' b')
  /\ map bookkeeping (fst (write_user data user a b))
     = map bookkeeping (fst (write_user data user a' b')).
Proof.
  unfold write_user. destruct (find_home data user) as [home|e]; [|now split].
  destruct (lookup user data) as [entries|e]; [|now split].
  apply scan_anon_independent.
Qed.

(** Two runs of [write_out] over the same data, with whatever draws, end
    the same way and write rows with the same users, dates, times and
    [time_at_loc], in the same order: only the coordinates shown can
    differ. *)
Theorem write_users_draw_independent (data : dataset) (users : list string)
    (rand rand' : nat -> N) :
  forall i j,
    snd (write_users data users rand i) = snd (write_users data users rand' j)
    /\ map bookkeeping (fst (write_users data users rand i))
       = map bookkeeping (fst (write_users data users rand' j)).
Proof.
  induction users as [|user rest IH]; intros i j; cbn [write_users];
    [now split|].
  destruct (write_user_draw_independent data user (rand i) (rand (S i))
              (rand' j) (rand' (S j))) as [Hr Hrows].
  destruct (write_user data user (rand i) (rand (S i))) as [rows r],
           (write_user data user (rand' j) (rand' (S j))) as [rows' r'].
  cbn [fst snd] in Hr, Hrows. subst r'.
  destruct r as [st|e]; [|now split].
  specialize (IH (S (S i)) (S (S j))).
  destruct (write_users data rest rand (S (S i))) as [rows1 r1],
           (write_users data rest rand' (S (S j))) as [rows1' r1'].
  cbn [fst snd] in IH |- *. destruct IH as [-> Hm].
  split; [reflexivity|]. now rewrite !map_app, Hrows, Hm.
Qed.

(** ** A home row that shows the home *)

Lemma valid_coordinates_In (entries : history) :
  forall latlons c,
    valid_coordinates entries = Ok latlons -> In c latlons ->
    exists key m, In (key, m) entries /\ is_valid m = true
                  /\ rounded_latlon (latitude m) (longitude m) = Ok c.
Proof.
  induction entries as [|[key m] rest IH]; intros latlons c; cbn.
  - intros [= <-] [].
  - destruct (is_valid m) eqn:Hv.
    + intros H Hin. do 2 inv_bind H. injection H as <-.
      destruct Hin as [<-|Hin].
      * exists key, m. repeat split; auto.
      * destruct (IH _ _ Ha0 Hin) as (k & m' & Hin' & H').
        exists k, m'. split; [now right | exact H'].
    + intros H Hin. destruct (IH _ _ H Hin) as (k & m' & Hin' & H').
      exists k, m'. split; [now right | exact H'].
Qed.

(** In a scan that ends normally every valid measurement has its row. *)
Lemma scan_rows_cover (user : string) (home anon : string * string)
    (entries : history) :
  forall st st' rows key m,
    scan user home anon st entries = (rows, Ok st') ->
    In (key, m) entries -> is_valid m = true ->
    exists r date time c home_hit,
      In r rows
      /\ reformat_key key = Ok (date, time)
      /\ rounded_latlon (latitude m) (longitude m) = Ok c
      /\ is_same_place (as_latlon c) (as_latlon home) = Ok home_hit
      /\ r = written user date time (if home_hit then anon else c)
               (row_time_at_loc r).
Proof.
  induction entries as [|[k0 m0] rest IH]; intros st st' rows key m;
    cbn [scan]; [intros _ []|].
  destruct (scan_entry user home anon st (k0, m0)) as [[st1 out]|e] eqn:He;
    [|discriminate].
  destruct (scan user home anon st1 rest) as [rows' r'] eqn:Hs.
  intros [= <- ->] [[= -> ->]|Hin] Hv.
  - apply scan_entry_Ok in He
      as [(Hv' & _)|(_ & date & time & c & Hk & Hc & Hvis)]; [congruence|].
    apply visit_Ok in Hvis.
    destruct Hvis as (same & hit & _ & Hhit & _ & _ & _ & _ & ->).
    eexists _, date, time, c, hit.
    split; [now left|]. repeat split; auto.
  - destruct (IH _ _ _ _ _ Hs Hin Hv)
      as (r & date & time & c & hit & Hr & H). exists r, date, time, c, hit.
    split; [|exact H]. destruct out; [now right | exact Hr].
Qed.

Lemma finite_coord_readable (c : string * string) :
  finite_coord c = true -> readable_place (as_latlon c).
Proof.
  unfold finite_coord, readable_place. cbn.
  destruct (float_of_string (fst c)) as [x|]; [|discriminate].
  destruct (float_of_string (snd c)) as [y|]; [|discriminate].
  intros _. now exists x, y.
Qed.

(** C10. For some outcomes of the two draws the anonymised latitude and
    longitude are, character for character, the home's own strings (each
    drawn digit being the one it replaces), and then a row is written that
    carries the home coordinate itself: for a user whose scan ends
    normally, the row of a measurement at the home. *)
Theorem anonymized_home_can_be_home (data : dataset) (user : string)
    (home : string * string) (entries : history) :
  find_home data user = Ok home ->
  lookup user data = Ok entries ->
  finite_coord home = true ->
  scannable entries = true ->
  exists draw_lat draw_lon,
    (draw_lat < 10)%N /\ (draw_lon < 10)%N
    /\ anonymize (fst home) draw_lat = fst home
    /\ anonymize (snd home) draw_lon = snd home
    /\ exists rows st' r key m,
         write_user data user draw_lat draw_lon = (rows, Ok st')
         /\ In r rows
         /\ (row_lat r, row_lon r) = home
         /\ In (key, m) entries /\ is_valid m = true
         /\ rounded_latlon (latitude m) (longitude m) = Ok home
         /\ reformat_key key = Ok (row_date r, row_time r)
         /\ Forall (row_from home home entries) rows.
Proof.
  intros Hh Hl Hf Hs.
  destruct (find_home_In data user entries home Hl Hh) as (latlons & Hv & Hin).
  pose proof (valid_coordinates_fmt4 entries latlons Hv) as Hall.
  rewrite Forall_forall in Hall. destruct (Hall home Hin) as (x & y & Exy).
  assert (Hf' : finite_coord (fmt4 x, fmt4 y) = true) by now rewrite <- Exy.
  destruct (fmt4_finite x y Hf') as (s & n & s' & n' & Ex & Ey).
  exists (n mod 10)%N, (n' mod 10)%N.
  assert (Ha : anonymize (fst home) (n mod 10) = fst home)
    by (rewrite Exy; cbn [fst]; rewrite Ex; apply anonymize_fixed4).
  assert (Hb : anonymize (snd home) (n' mod 10) = snd home)
    by (rewrite Exy; cbn [snd]; rewrite Ey; apply anonymize_fixed4).
  split; [now apply N.mod_upper_bound|].
  split; [now apply N.mod_upper_bound|].
  split; [exact Ha|]. split; [exact Hb|].
  rewrite (write_user_scan data user _ _ _ entries Hh Hl), Ha, Hb.
  rewrite <- surjective_pairing.
  destruct (scan_returns_from user home home entries
              (finite_coord_readable home Hf) Hs initial_state)
    as (rows & st' & Hscan & _).
  { eexists _, _. split; reflexivity. }
  { now right. }
  destruct (valid_coordinates_In entries latlons home Hv Hin)
    as (key & m & Hinm & Hvm & Hcm).
  destruct (scan_rows_cover user home home entries _ _ _ key m Hscan Hinm Hvm)
    as (r & date & time & c & hit & Hr & Hk & Hc & _ & Er).
  assert (c = home) by congruence. subst c.
  exists rows, st', r, key, m. rewrite Hscan.
  split; [reflexivity|]. split; [exact Hr|].
  assert (Hshown : (row_lat r, row_lon r) = home).
  { rewrite Er. cbn. destruct hit; symmetry; apply surjective_pairing. }
  split; [exact Hshown|]. split; [exact Hinm|]. split; [exact Hvm|].
  split; [exact Hcm|].
  split; [rewrite Er; exact Hk|].
  exact (scan_rows_from _ _ _ _ _ _ _ Hscan).
Qed.

Lemma anonymized_home_can_be_home_witness :
  let home := ("40.0000", "-75.0000") in
  let entries :=
    [("2023-01-01 09:00:00", {| latitude := "40.00001"; longitude := "-75.0" |});
     ("2023-01-01 09:05:00", {| latitude := "40.0"; longitude := "-75.0" |});
     ("2023-01-01 09:07:00", {| latitude := "40.0"; longitude := EmptyString |});
     ("2023-01-01 09:20:00", {| latitude := "40.0001"; longitude := "-75.0" |});
     ("2023-01-01 09:25:00", {| latitude := "41.0"; longitude := "-74.0" |})] in
  exists draw_lat draw_lon,
    (draw_lat < 10)%N /\ (draw_lon < 10)%N
    /\ anonymize (fst home) draw_lat = fst home
    /\ anonymize (snd home) draw_lon = snd home
    /\ exists rows st' r key m,
         write_user example_home "u" draw_lat draw_lon = (rows, Ok st')
         /\ In r rows
         /\ (row_lat r, row_lon r) = home
         /\ In (key, m) entries /\ is_valid m = true
         /\ rounded_latlon (latitude m) (longitude m) = Ok home
         /\ reformat_key key = Ok (row_date r, row_time r)
         /\ Forall (row_from home home entries) rows.
Proof.
  apply (anonymized_home_can_be_home example_home "u" ("40.0000", "-75.0000")).
  - vm_compute. reflexivity.
  - reflexivity.
  - vm_compute. reflexivity.
  - vm_compute. reflexivity.
Defined.
